(** * The authenticated mORMot HTTP client

    A shallow embedding of [python/crud_example/mormort_http_client.py]:
    the class [AutheticatedHTTPClient], its [login] handshake and the
    [add_session_signature] request signer, together with the library
    functions they call ([str.join], [str.format], [str.encode],
    [hashlib.sha256], [binascii.crc32], [urllib.parse.urlencode]).

    Python values are modelled as follows.
    - [str] is a sequence of Unicode code points ([list N]);
    - [bytes] is [list byte];
    - a [dict] is an association list in insertion order, because
      [urlencode] serialises the entries in that order;
    - an exception is a value of [exn], carried by [result];
    - the network, the random source and the clock are inputs of the
      functions that read them.

    The modules [session] and [utils_duh] that the client imports are not
    among the sources; what the client uses of them ([Session],
    [to_hex8_str]) follows the specification and is marked as such. *)

From Stdlib Require Import ZArith NArith List Bool Lia.
From Stdlib.Strings Require Import String Ascii Byte.
From Stdlib Require Import DecimalString.
Import ListNotations.
Local Open Scope Z_scope.

(** ** Python strings and bytes *)

Definition str := list N.
Definition bytes := list byte.

(** An ASCII literal of the source, as a [str]. *)
Definition lit (s : string) : str :=
  List.map N_of_ascii (list_ascii_of_string s).

Definition str_eqb (a b : str) : bool :=
  if list_eq_dec N.eq_dec a b then true else false.

(** [sep.join(parts)] for a list of [str]. *)
Fixpoint join (sep : str) (parts : list str) : str :=
  match parts with
  | [] => []
  | [x] => x
  | x :: rest => x ++ sep ++ join sep rest
  end.

Definition byte_of_N (n : N) : byte :=
  match Byte.of_N (n mod 256) with
  | Some b => b
  | None => x00
  end.

Definition byte_of_Z (z : Z) : byte := byte_of_N (Z.to_N (z mod 256)).
Definition Z_of_byte (b : byte) : Z := Z.of_N (Byte.to_N b).

(** UTF-8 encoding of one code point, as [str.encode()] does it with the
    default [errors='strict']: a surrogate (U+D800..U+DFFF) cannot be
    encoded, and nothing above U+10FFFF is a character. *)
Definition utf8_char (c : N) : option bytes :=
  (if c <? 0x80 then Some [byte_of_N c]
   else if c <? 0x800 then
     Some [byte_of_N (N.lor 0xC0 (N.shiftr c 6));
           byte_of_N (N.lor 0x80 (N.land c 0x3F))]
   else if c <? 0x10000 then
     if (0xD800 <=? c) && (c <=? 0xDFFF) then None
     else
       Some [byte_of_N (N.lor 0xE0 (N.shiftr c 12));
             byte_of_N (N.lor 0x80 (N.land (N.shiftr c 6) 0x3F));
             byte_of_N (N.lor 0x80 (N.land c 0x3F))]
   else if c <? 0x110000 then
     Some [byte_of_N (N.lor 0xF0 (N.shiftr c 18));
           byte_of_N (N.lor 0x80 (N.land (N.shiftr c 12) 0x3F));
           byte_of_N (N.lor 0x80 (N.land (N.shiftr c 6) 0x3F));
           byte_of_N (N.lor 0x80 (N.land c 0x3F))]
   else None)%N.

(** [s.encode()]; [None] stands for [UnicodeEncodeError]. *)
Fixpoint encode (s : str) : option bytes :=
  match s with
  | [] => Some []
  | c :: rest =>
      match utf8_char c, encode rest with
      | Some b, Some r => Some (b ++ r)
      | _, _ => None
      end
  end.

(** ** Hexadecimal text *)

Definition hexdigit_lower (n : N) : N :=
  (if n <? 10 then 48 + n else 87 + n)%N.

(** [binascii.hexlify(b).decode()], which is also [hexdigest()] of a digest
    and [secrets.token_hex] of the random bytes: two lowercase digits per
    byte. *)
Definition hexlify (b : bytes) : str :=
  flat_map (fun x => [hexdigit_lower (Byte.to_N x / 16);
                      hexdigit_lower (Byte.to_N x mod 16)]) b.

(** [s.upper()] on the ASCII range, which is where the source applies it
    (both operands are [hexlify] output). *)
Definition upper_char (c : N) : N :=
  (if (97 <=? c) && (c <=? 122) then c - 32 else c)%N.

Definition upper (s : str) : str := List.map upper_char s.

Definition hexdigit_upper (n : Z) : N :=
  if n <? 10 then Z.to_N (48 + n) else Z.to_N (55 + n).

(** Modelled from the spec: [utils_duh.to_hex8_str] is not part of the
    sources at hand.  The spec (HexCodec.encodeHex8) has it encode a 32-bit
    unsigned value as exactly 8 uppercase hexadecimal digits, left-padded
    with ['0'], most significant digit first.  The domain is [0, 2^32). *)
Definition to_hex8_str (value : Z) : str :=
  List.map (fun k => hexdigit_upper (Z.land (Z.shiftr value (4 * k)) 15))
           [7; 6; 5; 4; 3; 2; 1; 0].

(** ** [hashlib.sha256] (FIPS 180-4) on 32-bit words held in [Z] *)

Module SHA256.

Definition wrap (x : Z) : Z := x mod 2 ^ 32.
Definition plus (x y : Z) : Z := wrap (x + y).
Definition rotr (n x : Z) : Z :=
  Z.lor (Z.shiftr x n) (wrap (Z.shiftl x (32 - n))).
Definition compl (x : Z) : Z := Z.lxor x (2 ^ 32 - 1).

Definition choose (x y z : Z) : Z :=
  Z.lxor (Z.land x y) (Z.land (compl x) z).
Definition majority (x y z : Z) : Z :=
  Z.lxor (Z.lxor (Z.land x y) (Z.land x z)) (Z.land y z).
Definition big0 (x : Z) : Z :=
  Z.lxor (Z.lxor (rotr 2 x) (rotr 13 x)) (rotr 22 x).
Definition big1 (x : Z) : Z :=
  Z.lxor (Z.lxor (rotr 6 x) (rotr 11 x)) (rotr 25 x).
Definition small0 (x : Z) : Z :=
  Z.lxor (Z.lxor (rotr 7 x) (rotr 18 x)) (Z.shiftr x 3).
Definition small1 (x : Z) : Z :=
  Z.lxor (Z.lxor (rotr 17 x) (rotr 19 x)) (Z.shiftr x 10).

(** The round constants: the first 32 bits of the fractional parts of the
    cube roots of the first 64 primes. *)
Definition round_constants : list Z :=
  [1116352408; 1899447441; 3049323471; 3921009573; 961987163; 1508970993;
   2453635748; 2870763221; 3624381080; 310598401; 607225278; 1426881987;
   1925078388; 2162078206; 2614888103; 3248222580; 3835390401; 4022224774;
   264347078; 604807628; 770255983; 1249150122; 1555081692; 1996064986;
   2554220882; 2821834349; 2952996808; 3210313671; 3336571891; 3584528711;
   113926993; 338241895; 666307205; 773529912; 1294757372; 1396182291;
   1695183700; 1986661051; 2177026350; 2456956037; 2730485921; 2820302411;
   3259730800; 3345764771; 3516065817; 3600352804; 4094571909; 275423344;
   430227734; 506948616; 659060556; 883997877; 958139571; 1322822218;
   1537002063; 1747873779; 1955562222; 2024104815; 2227730452; 2361852424;
   2428436474; 2756734187; 3204031479; 3329325298].

(** The initial hash value. *)
Definition initial_state : list Z :=
  [1779033703; 3144134277; 1013904242; 2773480762;
   1359893119; 2600822924; 528734635; 1541459225].

(** Padding: a [0x80] byte, zero bytes up to 56 modulo 64, then the bit
    length as 8 big-endian bytes. *)
Definition be_bytes (count : nat) (v : Z) : list Z :=
  List.map (fun k => Z.shiftr v (8 * Z.of_nat k) mod 256)
           (rev (seq 0 count)).

Definition padded (msg : list Z) : list Z :=
  let len := Z.of_nat (List.length msg) in
  msg ++ [128] ++ repeat 0 (Z.to_nat ((55 - len) mod 64))
      ++ be_bytes 8 (8 * len).

Definition be_word (b : list Z) : Z :=
  fold_left (fun acc x => acc * 256 + x) b 0.

(** [count] big-endian 32-bit words from a byte list. *)
Fixpoint words (count : nat) (b : list Z) : list Z :=
  match count with
  | O => []
  | S n => be_word (firstn 4 b) :: words n (skipn 4 b)
  end.

(** The message schedule, newest word first: [sched] holds
    [W(t-1), W(t-2), ...] and is extended by [n] words. *)
Fixpoint extend (n : nat) (sched : list Z) : list Z :=
  match n with
  | O => sched
  | S m =>
      let w := plus (plus (small1 (nth 1 sched 0)) (nth 6 sched 0))
                    (plus (small0 (nth 14 sched 0)) (nth 15 sched 0)) in
      extend m (w :: sched)
  end.

Definition schedule (block : list Z) : list Z :=
  rev (extend 48 (rev (words 16 block))).

Record regs := Regs { ra : Z; rb : Z; rc : Z; rd : Z;
                      re : Z; rf : Z; rg : Z; rh : Z }.

Definition round (s : regs) (kw : Z * Z) : regs :=
  let t1 := plus (plus (plus (rh s) (big1 (re s)))
                       (plus (choose (re s) (rf s) (rg s)) (fst kw)))
                 (snd kw) in
  let t2 := plus (big0 (ra s)) (majority (ra s) (rb s) (rc s)) in
  Regs (plus t1 t2) (ra s) (rb s) (rc s) (plus (rd s) t1) (re s) (rf s) (rg s).

Definition regs_of (h : list Z) : regs :=
  Regs (nth 0 h 0) (nth 1 h 0) (nth 2 h 0) (nth 3 h 0)
       (nth 4 h 0) (nth 5 h 0) (nth 6 h 0) (nth 7 h 0).

Definition list_of (s : regs) : list Z :=
  [ra s; rb s; rc s; rd s; re s; rf s; rg s; rh s].

Definition compress (h : list Z) (block : list Z) : list Z :=
  let s := fold_left round (combine round_constants (schedule block))
                     (regs_of h) in
  List.map (fun p => plus (fst p) (snd p)) (combine h (list_of s)).

(** [count] blocks of 64 bytes, hashed in order. *)
Fixpoint blocks (count : nat) (h : list Z) (b : list Z) : list Z :=
  match count with
  | O => h
  | S n => blocks n (compress h (firstn 64 b)) (skipn 64 b)
  end.

Definition digest (msg : bytes) : bytes :=
  let p := padded (List.map Z_of_byte msg) in
  let h := blocks (Nat.div (List.length p) 64) initial_state p in
  List.map byte_of_Z (flat_map (be_bytes 4) h).

End SHA256.

(** [hashlib.sha256(data).hexdigest()]. *)
Definition sha256_hexdigest (data : bytes) : str := hexlify (SHA256.digest data).

(** ** [binascii.crc32] (the CRC-32 of zlib, reflected polynomial
    [0xEDB88320]) *)

Definition crc_poly : Z := 0xEDB88320.
Definition mask32 : Z := 0xFFFFFFFF.

(** One bit of the shift register. *)
Definition crc_bit (c : Z) : Z :=
  if Z.testbit c 0 then Z.lxor (Z.shiftr c 1) crc_poly else Z.shiftr c 1.

(** One byte: it is added to the low bits, then eight shifts. *)
Definition crc_byte (c : Z) (b : byte) : Z :=
  Nat.iter 8 crc_bit (Z.lxor c (Z_of_byte b)).

(** [binascii.crc32(data, value)]: [value] is taken as an unsigned 32-bit
    integer, the register is inverted on entry and on exit. *)
Definition crc32 (data : bytes) (value : Z) : Z :=
  Z.lxor (fold_left crc_byte data (Z.lxor (value mod 2 ^ 32) mask32)) mask32.

(** ** [urllib.parse.urlencode] *)

(** The values a parameter mapping holds. *)
Inductive pyval : Type :=
| VStr (s : str)
| VInt (z : Z).

(** [str(v)]. *)
Definition str_of (v : pyval) : str :=
  match v with
  | VStr s => s
  | VInt z => lit (NilZero.string_of_int (Z.to_int z))
  end.

(** A [dict] with [str] keys, in insertion order. *)
Definition dict := list (str * pyval).

Fixpoint getitem (d : dict) (k : str) : option pyval :=
  match d with
  | [] => None
  | (k', v') :: rest => if str_eqb k k' then Some v' else getitem rest k
  end.

(** [d[k] = v]: the value of an existing key is replaced where it stands,
    a new key goes to the end. *)
Fixpoint setitem (d : dict) (k : str) (v : pyval) : dict :=
  match d with
  | [] => [(k, v)]
  | (k', v') :: rest =>
      if str_eqb k k' then (k', v) :: rest else (k', v') :: setitem rest k v
  end.

Definition keys (d : dict) : list str := List.map fst d.

(** The bytes [quote] never escapes: letters, digits and [_.-~]. *)
Definition always_safe (b : N) : bool :=
  ((65 <=? b) && (b <=? 90) || (97 <=? b) && (b <=? 122)
   || (48 <=? b) && (b <=? 57)
   || (b =? 95) || (b =? 46) || (b =? 45) || (b =? 126))%N.

Definition quote_byte (b : byte) : str :=
  let n := Byte.to_N b in
  if always_safe n then [n]
  else if (n =? 32)%N then [43%N]
  else [37%N; hexdigit_upper (Z.of_N (n / 16)); hexdigit_upper (Z.of_N (n mod 16))].

(** [quote_plus(s)]: the UTF-8 bytes of [s], a space becomes [+], every
    other unsafe byte is escaped as [%XX]; [None] stands for the
    [UnicodeEncodeError] of the strict encoder. *)
Definition quote_plus (s : str) : option str :=
  option_map (flat_map quote_byte) (encode s).

Fixpoint urlencode_items (d : dict) : option (list str) :=
  match d with
  | [] => Some []
  | (k, v) :: rest =>
      match quote_plus k, quote_plus (str_of v), urlencode_items rest with
      | Some qk, Some qv, Some l => Some ((qk ++ lit "=" ++ qv) :: l)
      | _, _, _ => None
      end
  end.

(** [urlencode(d)]: [k=v] pairs joined by [&]. *)
Definition urlencode (d : dict) : option str :=
  option_map (join (lit "&")) (urlencode_items d).

(** [template.format(args)] for positional [{}] fields and [str]
    arguments.  A field without an argument is an [IndexError] in Python;
    every call of the source gives as many arguments as its template has
    fields, and the model keeps such a field as it is. *)
Fixpoint format (template : str) (args : list str) : str :=
  match template with
  | [] => []
  | c :: rest =>
      match rest with
      | d :: rest' =>
          if ((c =? 123) && (d =? 125))%N then
            match args with
            | a :: args' => a ++ format rest' args'
            | [] => c :: d :: format rest' []
            end
          else c :: format rest args
      | [] => [c]
      end
  end.

(** ** Exceptions *)

(** How [requests.get] can fail to reach the server. *)
Inductive net_failure : Type :=
| ConnectionRefused
| ReadTimeout
| DNSFailure.

Inductive exn : Type :=
| RequestException (f : net_failure)
| JSONDecodeError
| KeyError (k : str)
| TypeError
| UnicodeEncodeError
| AttributeError.

Inductive result (A : Type) : Type :=
| Ok (a : A)
| Raise (e : exn).
Arguments Ok {A} a.
Arguments Raise {A} e.

(** Statements that change a state [S] and may raise. *)
Definition M (S A : Type) : Type := S -> S * result A.

Definition ret {S A : Type} (a : A) : M S A := fun s => (s, Ok a).

Definition bind {S A B : Type} (m : M S A) (k : A -> M S B) : M S B :=
  fun s =>
    match m s with
    | (s', Ok a) => k a s'
    | (s', Raise e) => (s', Raise e)
    end.

Definition lift {S A : Type} (r : result A) : M S A := fun s => (s, r).

Definition modify {S : Type} (f : S -> S) : M S unit := fun s => (f s, Ok tt).

Definition gets {S A : Type} (f : S -> A) : M S A := fun s => (s, Ok (f s)).

Notation "x <- m ;; k" := (bind m (fun x => k))
  (at level 61, m at next level, right associativity).

Definition or_raise {A : Type} (e : exn) (o : option A) : result A :=
  match o with
  | Some a => Ok a
  | None => Raise e
  end.

(** [s.encode()] as a statement. *)
Definition str_encode (s : str) : result bytes := or_raise UnicodeEncodeError
    (encode s).

(** ** The transport: [requests.get] and its responses *)

#[local] Set Warnings "-register-all".

(** What [resp.json()] can return; a number is an integer here, since
    nothing in the client reads one. *)
Inductive json : Type :=
| JNull
| JBool (b : bool)
| JNum (z : Z)
| JStr (s : str)
| JArr (items : list json)
| JObj (members : list (str * json)).

(** A response: its status and its body as [json()] reads it ([None] when
    the body is not JSON). *)
Record Response : Type := mkResponse {
  status_code : Z;
  body : option json
}.

Inductive reply : Type :=
| Failed (f : net_failure)
| Replied (resp : Response).

(** The network as one call sees it: the reply to each URL. *)
Definition network := str -> reply.

Definition Response_json (resp : Response) : result json :=
  or_raise JSONDecodeError (body resp).

Fixpoint member (k : str) (members : list (str * json)) : option json :=
  match members with
  | [] => None
  | (k', v) :: rest => if str_eqb k k' then Some v else member k rest
  end.

(** [value[key]] for a [str] key: only a [dict] has such an item. *)
Definition subscript (value : json) (key : str) : result json :=
  match value with
  | JObj members => or_raise (KeyError key) (member key members)
  | _ => Raise TypeError
  end.

(** An operand of [''.join] has to be a [str]. *)
Definition as_str (value : json) : result str :=
  match value with
  | JStr s => Ok s
  | _ => Raise TypeError
  end.

(** ** The session *)

(** Modelled from the spec: [session.Session] is not part of the sources at
    hand.  The spec has a session hold [sessionId], the identifier the
    server assigned, and [secretSeed], the same hashed-password value that
    was submitted at login, both immutable after creation. *)
Record Session : Type := mkSession {
  sessionId : json;
  secretSeed : str
}.

(** Modelled from the spec: the constructor, [Session(sessionId,
    passwordHash)]. *)
Definition Session_new (session_id : json) (password_hash : str) : Session :=
  mkSession session_id password_hash.

(** ** The client *)

Record AutheticatedHTTPClient : Type := mkClient {
  host : str;
  port : str;
  root : str;
  base_url : str;
  session : option Session
}.

(** [__init__]. *)
Definition __init__ (host port root : str) : AutheticatedHTTPClient :=
  mkClient host port root (format (lit "http://{}:{}") [host; port]) None.

Definition set_session (c : AutheticatedHTTPClient)
    (s : Session) : AutheticatedHTTPClient :=
  mkClient (host c) (port c) (root c) (base_url c) (Some s).

(** The state of a call that talks to the server: the client object and
    the exchanges made so far, oldest first. *)
Record proc : Type := mkProc {
  self : AutheticatedHTTPClient;
  wire : list (str * reply)
}.

(** [requests.get(url)]. *)
Definition requests_get (net : network) (url : str) : M proc Response :=
  fun st =>
    (mkProc (self st) (wire st ++ [(url, net url)]),
     match net url with
     | Failed f => Raise (RequestException f)
     | Replied resp => Ok resp
     end).

(** [__get_server_nonce__]. *)
Definition __get_server_nonce__ (net : network) (user : str) : M proc json :=
  base <- gets (fun st => base_url (self st)) ;;
  rt <- gets (fun st => root (self st)) ;;
  let url := format (lit "{}/{}/Auth?Username={}") [base; rt; user] in
  resp <- requests_get net url ;;
  value <- lift (Response_json resp) ;;
  lift (subscript value (lit "result")).

(** The system's random source, as the bytes it is going to give. *)
Definition random_source := nat -> byte.

(** [secrets.token_hex(nbytes)]: [nbytes] random bytes, in hexadecimal. *)
Definition token_hex (entropy : random_source) (nbytes : nat) : str :=
  hexlify (List.map entropy (seq 0 nbytes)).

(** [__generate_client_nonce__]. *)
Definition __generate_client_nonce__ (entropy : random_source) : str :=
  upper (token_hex entropy 32).

(** Lines 60 to 68 of [login]: the value bound to [sha256password]. *)
Definition sha256password (root server_nonce client_nonce user password_hash : str)
  : result str :=
  match str_encode
          (join [] [root; server_nonce; client_nonce; user; password_hash]) with
  | Ok data => Ok (upper (sha256_hexdigest data))
  | Raise e => Raise e
  end.

(** [login]. *)
Definition login_body (net : network) (entropy : random_source)
    (user password_hash : str)
  : M proc (option Session) :=
  server_nonce <- __get_server_nonce__ net user ;;
  let client_nonce := __generate_client_nonce__ entropy in
  rt <- gets (fun st => root (self st)) ;;
  nonce_str <- lift (as_str server_nonce) ;;
  sha <- lift (sha256password rt nonce_str client_nonce user password_hash) ;;
  base <- gets (fun st => base_url (self st)) ;;
  let url := format (lit "{}/{}/Auth?Username={}&Password={}&ClientNonce={}")
                    [base; rt; user; sha; client_nonce] in
  resp <- requests_get net url ;;
  if status_code resp =? 200 then
    value <- lift (Response_json resp) ;;
    session_data <- lift (subscript value (lit "result")) ;;
    let s := Session_new session_data password_hash in
    _ <- modify (fun st => mkProc (set_session (self st) s) (wire st)) ;;
    ret (Some s)
  else ret None.

Definition login (c : AutheticatedHTTPClient) (net : network) (entropy : random_source)
    (user password_hash : str) : proc * result (option Session) :=
  login_body net entropy user password_hash (mkProc c []).

(** Lines 93 to 96 of [add_session_signature]: the value bound to
    [url_without_sesssion_signature].  A [dict] is true when it is not
    empty. *)
Definition url_without_sesssion_signature (root method : str) (parameters : dict)
  : result str :=
  match parameters with
  | [] => Ok (join (lit "/") [root; method])
  | _ :: _ =>
      match or_raise UnicodeEncodeError (urlencode parameters) with
      | Ok query => Ok (join (lit "/") [root; join (lit "?") [method; query]])
      | Raise e => Raise e
      end
  end.

(** Lines 100 and 101: the checksum of the two segments. *)
Definition signature_crc (seed : Z) (nonce url : bytes) : Z :=
  let crc := crc32 nonce seed in
  let crc := crc32 url crc in
  crc.

(** The chain as the spec words it (ChecksumChain.chain): the first segment
    is checksummed with [seed] as the initial value, each later one starts
    from the value before it. *)
Definition spec_chain (seed : Z) (segments : list bytes) : Z :=
  fold_left (fun value segment => crc32 segment value) segments seed.

Section Signing.

(** Modelled from the spec: the two read accessors of a session that the
    client uses.  The spec says that [id_hex] is the identifier rendered
    as hexadecimal and that [private_salt_hash] is the hashed password in
    a form usable as the initial checksum value; it fixes neither
    rendering, so both are parameters. *)
Variable render_id_hex : json -> str.
Variable seed_of_secret : str -> Z.

Definition id_hex (s : Session) : str := render_id_hex (sessionId s).
Definition private_salt_hash (s : Session) : Z := seed_of_secret (secretSeed s).

(** Modelled from the spec: [get_tick_count] returns the reading of the
    session's clock, an unsigned 32-bit count of ticks; [clock] is that
    reading at the time of the call. *)
Definition get_tick_count (s : Session) (clock : Z) : Z := clock.

(** [add_session_signature]: the state is the caller's [parameters]
    object. *)
Definition add_session_signature (c : AutheticatedHTTPClient) (clock : Z) (method : str)
  : M dict str :=
  parameters <- gets (fun d => d) ;;
  unsigned <- lift (url_without_sesssion_signature (root c) method parameters) ;;
  s <- lift (or_raise AttributeError (session c)) ;;
  let nonce := to_hex8_str (Z.shiftr (get_tick_count s clock) 8) in
  nonce_bytes <- lift (str_encode nonce) ;;
  unsigned_bytes <- lift (str_encode unsigned) ;;
  let crc := signature_crc (private_salt_hash s) nonce_bytes unsigned_bytes in
  _ <- modify (fun d => setitem d (lit "session_signature")
                          (VStr (join [] [id_hex s; nonce; to_hex8_str crc]))) ;;
  signed <- gets (fun d => d) ;;
  query <- lift (or_raise UnicodeEncodeError (urlencode signed)) ;;
  ret (join (lit "/") [root c; join (lit "?") [method; query]]).

End Signing.

(** ** The calls of a client, in sequence *)

Inductive call : Type :=
| Login (net : network) (entropy : random_source) (user password_hash : str)
| Sign (clock : Z) (method : str) (parameters : dict).

(** The client object after a call: only [login] assigns to it. *)
Definition after (c : AutheticatedHTTPClient) (k : call) : AutheticatedHTTPClient :=
  match k with
  | Login net entropy user password_hash =>
      self (fst (login c net entropy user password_hash))
  | Sign _ _ _ => c
  end.

Definition run (c : AutheticatedHTTPClient)
    (calls : list call) : AutheticatedHTTPClient :=
  fold_left after calls c.

(** A call that gives the client a new session. *)
Definition establishes (c : AutheticatedHTTPClient) (k : call) : Prop :=
  match k with
  | Login net entropy user password_hash =>
      exists s, snd (login c net entropy user password_hash) = Ok (Some s)
  | Sign _ _ _ => False
  end.

(** The calls made while a session lasts: none of them logs in again with
    success. *)
Fixpoint within_lifetime (c : AutheticatedHTTPClient) (calls : list call) : Prop :=
  match calls with
  | [] => True
  | k :: rest => ~ establishes c k /\ within_lifetime (after c k) rest
  end.

(** ** Values for the examples *)

Definition ascii_bytes (s : string) : bytes := list_byte_of_string s.

Definition example_client : AutheticatedHTTPClient :=
  __init__ (lit "localhost") (lit "888") (lit "root").

Definition example_password_hash : str :=
  lit "67aeea294e1cb515236fd7829c55ec820ef888e8e221814d24d83b3dc4d825dd".

Definition example_entropy : random_source := fun _ => "187"%byte.

Definition nonce_url : str := lit "http://localhost:888/root/Auth?Username=admin".

Definition nonce_reply : reply :=
  Replied (mkResponse 200 (Some (JObj [(lit "result", JStr (lit "AAAAAAAA"))]))).

(** A server that answers the challenge and then every handshake with
    [second]. *)
Definition server (second : reply) : network :=
  fun url => if str_eqb url nonce_url then nonce_reply else second.

Definition accepting : network :=
  server (Replied (mkResponse 200 (Some (JObj [(lit "result", JStr (lit "12345+abc"))])))).

Definition rejecting : network :=
  server (Replied (mkResponse 403 None)).

Definition unreachable : network := fun _ => Failed ConnectionRefused.

Definition example_session : Session :=
  Session_new (JStr (lit "12345+abc")) example_password_hash.

Definition example_id_hex (j : json) : str := lit "00003039".
Definition example_seed (secret : str) : Z := 7.

Definition example_parameters : dict :=
  [(lit "param 1", VInt (-15)); (lit "b", VStr (lit "x/y~z"))].

(** A server whose handshake answer has status 200 and an empty JSON
    object as its body. *)
Definition malformed : network :=
  server (Replied (mkResponse 200 (Some (JObj [])))).

(** A mapping that already holds a signature, as after an earlier call. *)
Definition signed_before : dict := [(lit "session_signature", VStr (lit "stale"))].

(** Calls made while the example session lasts: a signed request and three
    logins that fail in different ways. *)
Definition example_calls : list call :=
  [Sign 5 (lit "First") [];
   Login rejecting example_entropy (lit "admin") (lit "wrong");
   Login unreachable example_entropy (lit "admin") (lit "other");
   Login malformed example_entropy (lit "admin") example_password_hash].

(** ** Vocabulary of the statements *)

(** The uppercase hexadecimal encoding of a byte string, written out. *)
Definition hex_upper (b : bytes) : str :=
  flat_map (fun x => [hexdigit_upper (Z_of_byte x / 16);
                      hexdigit_upper (Z_of_byte x mod 16)]) b.

(** The URLs of the two requests of [login]. *)
Definition challenge_url (c : AutheticatedHTTPClient) (user : str) : str :=
  format (lit "{}/{}/Auth?Username={}") [base_url c; root c; user].

Definition handshake_url (c : AutheticatedHTTPClient)
    (user password client_nonce : str) : str :=
  format (lit "{}/{}/Auth?Username={}&Password={}&ClientNonce={}")
         [base_url c; root c; user; password; client_nonce].

(** [resp.json()['result']]. *)
Definition result_field (resp : Response) : result json :=
  match Response_json resp with
  | Ok value => subscript value (lit "result")
  | Raise e => Raise e
  end.

(** The [Password] credential that [login] derives from the response to the
    challenge. *)
Definition credential (c : AutheticatedHTTPClient) (entropy : random_source)
    (user password_hash : str)
    (challenge : Response) : result str :=
  match result_field challenge with
  | Ok server_nonce =>
      match as_str server_nonce with
      | Ok nonce_str =>
          sha256password (root c) nonce_str (__generate_client_nonce__ entropy)
                         user password_hash
      | Raise e => Raise e
      end
  | Raise e => Raise e
  end.

(** The key under which the signature is stored. *)
Definition signature_key : str := lit "session_signature".

(** The window identifier of a clock reading. *)
Definition nonce8 (clock : Z) : str := to_hex8_str (Z.shiftr clock 8).

(** The window identifier inside a signature made with an identifier of
    [id_length] characters: the 8 characters after the identifier. *)
Definition nonce_component (id_length : nat) (signature : str) : str :=
  firstn 8 (skipn id_length signature).

(** ** The request methods *)

Inductive http_verb : Type :=
| GET
| POST
| PUT
| DELETE.

(** A request as the transport gets it; [rq_data] is the body, when the
    caller gives one. *)
Record http_request : Type := mkRequest {
  rq_verb : http_verb;
  rq_url : str;
  rq_data : option str
}.

(** The network as a request method sees it: the reply to each request. *)
Definition transport := http_request -> reply.

(** The requests made so far, oldest first, each with its reply. *)
Definition exchanges := list (http_request * reply).

(** [requests.get], [requests.post], [requests.put], [requests.delete] and
    [requests.Session().send]: the response is returned whatever its
    status, a failure to reach the server is raised. *)
Definition send (net : transport) (rq : http_request) : M exchanges Response :=
  fun sent =>
    (sent ++ [(rq, net rq)],
     match net rq with
     | Failed f => Raise (RequestException f)
     | Replied resp => Ok resp
     end).

Section Requests.

Variable render_id_hex : json -> str.
Variable seed_of_secret : str -> Z.

(** [request]: the first component is the caller's [parameters] object
    after the call. *)
Definition request (c : AutheticatedHTTPClient) (clock : Z) (net : transport)
    (method : str) (parameters : dict) : dict * (exchanges * result Response) :=
  let signed :=
    add_session_signature render_id_hex seed_of_secret c clock method parameters in
  (fst signed,
   (path <- lift (snd signed) ;;
    let url := join (lit "/") [base_url c; path] in
    send net (mkRequest GET url None)) []).

(** [post]: the mapping that is signed is a fresh [{}]. *)
Definition post (c : AutheticatedHTTPClient) (clock : Z) (net : transport)
    (method json_value : str) : exchanges * result Response :=
  (path <- lift (snd (add_session_signature render_id_hex seed_of_secret
                        c clock method [])) ;;
   let url := join (lit "/") [base_url c; path] in
   send net (mkRequest POST url (Some json_value))) [].

(** [put]. *)
Definition put (c : AutheticatedHTTPClient) (clock : Z) (net : transport)
    (method json_value : str) : exchanges * result Response :=
  (path <- lift (snd (add_session_signature render_id_hex seed_of_secret
                        c clock method [])) ;;
   let url := join (lit "/") [base_url c; path] in
   send net (mkRequest PUT url (Some json_value))) [].

(** [delete]. *)
Definition delete (c : AutheticatedHTTPClient) (clock : Z) (net : transport)
    (method : str) : exchanges * result Response :=
  (path <- lift (snd (add_session_signature render_id_hex seed_of_secret
                        c clock method [])) ;;
   let url := join (lit "/") [base_url c; path] in
   send net (mkRequest DELETE url None)) [].

(** [xget]: the method that is signed is the empty string. *)
Definition xget (c : AutheticatedHTTPClient) (clock : Z) (net : transport)
    (data : str) : exchanges * result Response :=
  (path <- lift (snd (add_session_signature render_id_hex seed_of_secret
                        c clock [] [])) ;;
   let url := join (lit "/") [base_url c; path] in
   send net (mkRequest GET url (Some data))) [].

End Requests.

(** ** Further vocabulary *)

(** The digits [0-9] and [A-F]. *)
Definition is_upper_hex (c : N) : bool :=
  ((48 <=? c) && (c <=? 57) || (65 <=? c) && (c <=? 70))%N.

(** Text that [quote_plus] leaves as it is. *)
Definition safe_text (s : str) : Prop :=
  Forall (fun c => always_safe c = true) s.

(** What joins the signature to the unsigned path. *)
Definition signature_separator (parameters : dict) : str :=
  match parameters with
  | [] => lit "?"
  | _ :: _ => lit "&"
  end.

(** The signature of a request for [unsigned_bytes], with the accessors
    of the session given. *)
Definition signature_for (id : str) (salt : Z) (clock : Z)
    (unsigned_bytes : bytes) : str :=
  id ++ nonce8 clock
     ++ to_hex8_str (signature_crc salt (List.map byte_of_N (nonce8 clock))
                                   unsigned_bytes).

(** What a request method returns for a reply: the response whatever its
    status, or the transport failure raised. *)
Definition delivered (r : reply) : result Response :=
  match r with
  | Failed f => Raise (RequestException f)
  | Replied resp => Ok resp
  end.

(** ** More values for the examples *)

(** A server that answers the challenge and then does not answer. *)
Definition dropping : network := server (Failed ReadTimeout).

(** A server that answers every request with status 500 and a body that
    holds a nonce. *)
Definition failing_with_nonce : network :=
  fun _ => Replied (mkResponse 500 (Some (JObj [(lit "result", JStr (lit "AAAAAAAA"))]))).

(** A server whose challenge answer holds a number where the nonce should
    be. *)
Definition number_for_nonce : network :=
  fun _ => Replied (mkResponse 200 (Some (JObj [(lit "result", JNum 42)]))).

Definition echo : transport :=
  fun rq => Replied (mkResponse 404 (Some (JStr (rq_url rq)))).

Definition offline : transport := fun _ => Failed DNSFailure.

(** * Properties *)

(** ** Strings and bytes *)

Lemma str_eqb_eq (a b : str) : str_eqb a b = true <-> a = b.
Proof.
  unfold str_eqb. destruct (list_eq_dec N.eq_dec a b); split; congruence.
Qed.

Lemma str_eqb_refl (a : str) : str_eqb a a = true.
Proof. now apply str_eqb_eq. Qed.

Lemma str_eqb_neq (a b : str) : a <> b -> str_eqb a b = false.
Proof.
  intros Hab. destruct (str_eqb a b) eqn:E; [|reflexivity].
  apply str_eqb_eq in E. contradiction.
Qed.

Lemma join_empty_sep_5 (a b c d e : str) :
  join [] [a; b; c; d; e] = a ++ b ++ c ++ d ++ e.
Proof. reflexivity. Qed.

Lemma join_empty_sep_3 (a b c : str) : join [] [a; b; c] = a ++ b ++ c.
Proof. reflexivity. Qed.

Lemma encode_app (a b : str) :
  encode (a ++ b) =
  match encode a, encode b with
  | Some x, Some y => Some (x ++ y)
  | _, _ => None
  end.
Proof.
  induction a as [|c a IH]; simpl.
  - destruct (encode b); reflexivity.
  - rewrite IH. destruct (utf8_char c), (encode a), (encode b); simpl;
      try reflexivity.
    now rewrite app_assoc.
Qed.

Lemma encode_app_some (a b : str) (x y : bytes) :
  encode a = Some x -> encode b = Some y -> encode (a ++ b) = Some (x ++ y).
Proof. intros Ha Hb. now rewrite encode_app, Ha, Hb. Qed.

(** The three templates of the source. *)
Lemma format_base_url (h p : str) :
  format (lit "http://{}:{}") [h; p] = lit "http://" ++ h ++ lit ":" ++ p.
Proof.
  cbn. now rewrite app_nil_r.
Qed.

Lemma format_nonce_url (b r u : str) :
  format (lit "{}/{}/Auth?Username={}") [b; r; u] =
  b ++ lit "/" ++ r ++ lit "/Auth?Username=" ++ u.
Proof.
  cbn. now rewrite app_nil_r.
Qed.

Lemma format_handshake_url (b r u p n : str) :
  format (lit "{}/{}/Auth?Username={}&Password={}&ClientNonce={}") [b; r; u; p; n] =
  b ++ lit "/" ++ r ++ lit "/Auth?Username=" ++ u
    ++ lit "&Password=" ++ p ++ lit "&ClientNonce=" ++ n.
Proof.
  cbn. now rewrite app_nil_r.
Qed.

(** ** Hexadecimal text *)

Lemma upper_hexdigit (n : N) :
  (n < 16)%N -> upper_char (hexdigit_lower n) = hexdigit_upper (Z.of_N n).
Proof.
  intros Hn. unfold upper_char, hexdigit_lower, hexdigit_upper.
  destruct (N.ltb_spec n 10); destruct (Z.ltb_spec (Z.of_N n) 10); try lia.
  - replace ((97 <=? 48 + n) && (48 + n <=? 122))%N with false; [lia|].
    symmetry. apply andb_false_iff. left. apply N.leb_gt. lia.
  - replace ((97 <=? 87 + n) && (87 + n <=? 122))%N with true; [lia|].
    symmetry. apply andb_true_iff. split; apply N.leb_le; lia.
Qed.

Lemma upper_hexlify (b : bytes) : upper (hexlify b) = hex_upper b.
Proof.
  unfold upper, hexlify, hex_upper, Z_of_byte.
  induction b as [|x b IH]; [reflexivity|].
  cbn [flat_map List.map app]. rewrite IH.
  pose proof (Byte.to_N_bounded x) as Hx.
  rewrite !upper_hexdigit.
  - now rewrite N2Z.inj_div, N2Z.inj_mod.
  - apply N.mod_lt. lia.
  - apply N.Div0.div_lt_upper_bound. lia.
Qed.

Lemma hexlify_length (b : bytes) :
  List.length (hexlify b) = (2 * List.length b)%nat.
Proof.
  unfold hexlify. induction b as [|x b IH]; [reflexivity|].
  cbn [flat_map app List.length]. rewrite IH. lia.
Qed.

Lemma to_hex8_str_length (v : Z) : List.length (to_hex8_str v) = 8%nat.
Proof. reflexivity. Qed.

Lemma hexdigit_upper_inj (n m : Z) :
  0 <= n < 16 -> 0 <= m < 16 -> hexdigit_upper n = hexdigit_upper m -> n = m.
Proof.
  unfold hexdigit_upper. intros Hn Hm.
  destruct (Z.ltb_spec n 10); destruct (Z.ltb_spec m 10); lia.
Qed.

Lemma nibble_eq (v k : Z) :
  0 <= k -> Z.land (Z.shiftr v (4 * k)) 15 = (v / 2 ^ (4 * k)) mod 16.
Proof.
  intros Hk. change 15 with (Z.ones 4).
  rewrite Z.land_ones by lia. rewrite Z.shiftr_div_pow2 by lia. reflexivity.
Qed.

Lemma nested_div16 (v : Z) :
  v / 256 = v / 16 / 16 /\ v / 4096 = v / 16 / 16 / 16 /\
  v / 65536 = v / 16 / 16 / 16 / 16 /\
  v / 1048576 = v / 16 / 16 / 16 / 16 / 16 /\
  v / 16777216 = v / 16 / 16 / 16 / 16 / 16 / 16 /\
  v / 268435456 = v / 16 / 16 / 16 / 16 / 16 / 16 / 16.
Proof. rewrite !Z.div_div by lia. repeat split; reflexivity. Qed.

Lemma to_hex8_str_inj (v w : Z) :
  0 <= v < 2 ^ 32 -> 0 <= w < 2 ^ 32 ->
  to_hex8_str v = to_hex8_str w -> v = w.
Proof.
  intros Hv Hw E. unfold to_hex8_str in E. cbn [List.map] in E.
  rewrite !nibble_eq in E by lia.
  injection E as E7 E6 E5 E4 E3 E2 E1 E0.
  apply hexdigit_upper_inj in E7, E6, E5, E4, E3, E2, E1, E0;
    try (apply Z.mod_pos_bound; lia).
  change (Z.pow_pos 2 4) with 16 in *. change (Z.pow_pos 2 8) with 256 in *.
  change (Z.pow_pos 2 12) with 4096 in *.
  change (Z.pow_pos 2 16) with 65536 in *.
  change (Z.pow_pos 2 20) with 1048576 in *.
  change (Z.pow_pos 2 24) with 16777216 in *.
  change (Z.pow_pos 2 28) with 268435456 in *.
  rewrite Z.div_1_r in E0.
  destruct (nested_div16 v) as (V2 & V3 & V4 & V5 & V6 & V7).
  destruct (nested_div16 w) as (W2 & W3 & W4 & W5 & W6 & W7).
  rewrite V2, W2 in E2. rewrite V3, W3 in E3. rewrite V4, W4 in E4.
  rewrite V5, W5 in E5. rewrite V6, W6 in E6. rewrite V7, W7 in E7.
  clear V2 V3 V4 V5 V6 V7 W2 W3 W4 W5 W6 W7.
  Z.to_euclidean_division_equations. lia.
Qed.

(** ** CRC-32 *)

Lemma lxor_range (n a b : Z) :
  0 <= n -> 0 <= a < 2 ^ n -> 0 <= b < 2 ^ n -> 0 <= Z.lxor a b < 2 ^ n.
Proof.
  intros Hn Ha Hb.
  assert (E : Z.lxor a b = Z.lxor a b mod 2 ^ n).
  { apply Z.bits_inj'. intros m Hm.
    destruct (Z.lt_ge_cases m n) as [Hlt|Hge].
    - now rewrite Z.mod_pow2_bits_low.
    - rewrite Z.mod_pow2_bits_high by lia.
      rewrite Z.lxor_spec.
      rewrite <- (Z.mod_small a (2 ^ n)), <- (Z.mod_small b (2 ^ n)) by lia.
      now rewrite !Z.mod_pow2_bits_high by lia. }
  rewrite E. apply Z.mod_pos_bound. lia.
Qed.

Lemma shiftr1_range (c : Z) : 0 <= c < 2 ^ 32 -> 0 <= Z.shiftr c 1 < 2 ^ 32.
Proof.
  intros Hc. rewrite Z.shiftr_div_pow2 by lia. change (2 ^ 1) with 2.
  change (2 ^ 32) with 4294967296 in *.
  Z.to_euclidean_division_equations. lia.
Qed.

Lemma crc_bit_range (c : Z) : 0 <= c < 2 ^ 32 -> 0 <= crc_bit c < 2 ^ 32.
Proof.
  intros Hc. unfold crc_bit. pose proof (shiftr1_range c Hc) as Hs.
  destruct (Z.testbit c 0); [|exact Hs].
  apply lxor_range; [lia|exact Hs|]. unfold crc_poly. lia.
Qed.

Lemma Z_of_byte_range (b : byte) : 0 <= Z_of_byte b < 256.
Proof. unfold Z_of_byte. pose proof (Byte.to_N_bounded b). lia. Qed.

Lemma crc_byte_range (c : Z) (b : byte) :
  0 <= c < 2 ^ 32 -> 0 <= crc_byte c b < 2 ^ 32.
Proof.
  intros Hc. unfold crc_byte.
  assert (H0 : 0 <= Z.lxor c (Z_of_byte b) < 2 ^ 32).
  { apply lxor_range; [lia|exact Hc|]. pose proof (Z_of_byte_range b). lia. }
  generalize dependent (Z.lxor c (Z_of_byte b)). intros x Hx.
  cbn [Nat.iter nat_rect]. do 8 apply crc_bit_range. exact Hx.
Qed.

Lemma crc_register_range (data : bytes) (c : Z) :
  0 <= c < 2 ^ 32 -> 0 <= fold_left crc_byte data c < 2 ^ 32.
Proof.
  revert c. induction data as [|b data IH]; intros c Hc; [exact Hc|].
  cbn [fold_left]. apply IH. now apply crc_byte_range.
Qed.

Lemma mask32_range : 0 <= mask32 < 2 ^ 32.
Proof. unfold mask32. lia. Qed.

(** The checksum is an unsigned 32-bit value, whatever the initial value. *)
Lemma crc32_range (data : bytes) (value : Z) : 0 <= crc32 data value < 2 ^ 32.
Proof.
  unfold crc32. apply lxor_range; [lia| |apply mask32_range].
  apply crc_register_range. apply lxor_range; [lia| |apply mask32_range].
  apply Z.mod_pos_bound. lia.
Qed.

Lemma lxor_mask_twice (x : Z) : Z.lxor (Z.lxor x mask32) mask32 = x.
Proof. now rewrite Z.lxor_assoc, Z.lxor_nilpotent, Z.lxor_0_r. Qed.

(** A running checksum: continuing from the checksum of [a] over [b] is the
    checksum of [a ++ b]. *)
Lemma crc32_app (a b : bytes) (value : Z) :
  crc32 b (crc32 a value) = crc32 (a ++ b) value.
Proof.
  unfold crc32 at 1.
  rewrite (Z.mod_small (crc32 a value)) by apply crc32_range.
  unfold crc32. now rewrite lxor_mask_twice, fold_left_app.
Qed.

(** The initial value is read modulo [2^32]. *)
Lemma crc32_value_mod (data : bytes) (value : Z) :
  crc32 data (value mod 2 ^ 32) = crc32 data value.
Proof. unfold crc32. now rewrite Z.mod_mod by lia. Qed.

(** ** Dictionaries *)

Lemma getitem_setitem_same (d : dict) (k : str) (v : pyval) :
  getitem (setitem d k v) k = Some v.
Proof.
  induction d as [|[k' v'] d IH]; cbn [setitem getitem].
  - now rewrite str_eqb_refl.
  - destruct (str_eqb k k') eqn:E; cbn [getitem]; rewrite E; [reflexivity|exact IH].
Qed.

Lemma getitem_setitem_other (d : dict) (k k' : str) (v : pyval) :
  k' <> k -> getitem (setitem d k v) k' = getitem d k'.
Proof.
  intros Hk. induction d as [|[k0 v0] d IH]; cbn [setitem getitem].
  - now rewrite str_eqb_neq.
  - destruct (str_eqb k k0) eqn:E; cbn [getitem].
    + apply str_eqb_eq in E. subst k0. now rewrite str_eqb_neq.
    + now rewrite IH.
Qed.

Lemma setitem_present (d : dict) (k : str) (v : pyval) :
  In k (keys d) -> keys (setitem d k v) = keys d.
Proof.
  induction d as [|[k0 v0] d IH]; cbn [setitem keys List.map fst In]; [tauto|].
  intros Hin. destruct (str_eqb k k0) eqn:E; [reflexivity|].
  cbn [List.map fst]. f_equal. apply IH.
  destruct Hin as [->|Hin]; [|exact Hin]. now rewrite str_eqb_refl in E.
Qed.

Lemma setitem_absent (d : dict) (k : str) (v : pyval) :
  ~ In k (keys d) -> setitem d k v = d ++ [(k, v)].
Proof.
  induction d as [|[k0 v0] d IH]; cbn [setitem keys List.map fst In app];
    [reflexivity|].
  intros Hin. rewrite str_eqb_neq by (intros ->; tauto).
  f_equal. apply IH. tauto.
Qed.

Lemma getitem_none (d : dict) (k : str) :
  getitem d k = None <-> ~ In k (keys d).
Proof.
  induction d as [|[k0 v0] d IH]; cbn [getitem keys List.map fst In]; [tauto|].
  destruct (str_eqb k k0) eqn:E.
  - apply str_eqb_eq in E. subst. split; [discriminate|tauto].
  - rewrite IH. split; [|tauto]. intros Hn [->|Hin]; [|tauto].
    now rewrite str_eqb_refl in E.
Qed.

(** ** Encoding hexadecimal text *)

Lemma utf8_char_ascii (c : N) : (c < 128)%N -> utf8_char c = Some [byte_of_N c].
Proof.
  intros Hc. unfold utf8_char.
  now replace (c <? 128)%N with true by (symmetry; apply N.ltb_lt; exact Hc).
Qed.

Lemma encode_ascii (s : str) :
  Forall (fun c => (c < 128)%N) s -> encode s = Some (List.map byte_of_N s).
Proof.
  induction 1 as [|c s Hc Hs IH]; [reflexivity|].
  cbn [encode List.map]. now rewrite utf8_char_ascii, IH.
Qed.

Lemma hexdigit_upper_ascii (n : Z) : 0 <= n < 16 -> (hexdigit_upper n < 128)%N.
Proof. intros Hn. unfold hexdigit_upper. destruct (n <? 10); lia. Qed.

Lemma to_hex8_str_ascii (v : Z) : Forall (fun c => (c < 128)%N) (to_hex8_str v).
Proof.
  unfold to_hex8_str. apply Forall_map. apply Forall_forall. intros k _.
  apply hexdigit_upper_ascii. change 15 with (Z.ones 4).
  rewrite Z.land_ones by lia. apply Z.mod_pos_bound. lia.
Qed.

Lemma encode_to_hex8_str (v : Z) :
  encode (to_hex8_str v) = Some (List.map byte_of_N (to_hex8_str v)).
Proof. apply encode_ascii, to_hex8_str_ascii. Qed.

(** ** [login], case by case *)

Lemma login_cases (c : AutheticatedHTTPClient) (net : network) (entropy : random_source)
    (user password_hash : str) :
  login c net entropy user password_hash =
  let url1 := challenge_url c user in
  match net url1 with
  | Failed f => (mkProc c [(url1, Failed f)], Raise (RequestException f))
  | Replied r1 =>
      match credential c entropy user password_hash r1 with
      | Raise e => (mkProc c [(url1, Replied r1)], Raise e)
      | Ok password =>
          let url2 :=
            handshake_url c user password (__generate_client_nonce__ entropy) in
          let exchanges := [(url1, Replied r1); (url2, net url2)] in
          match net url2 with
          | Failed f => (mkProc c exchanges, Raise (RequestException f))
          | Replied r2 =>
              if status_code r2 =? 200 then
                match result_field r2 with
                | Ok value =>
                    let s := Session_new value password_hash in
                    (mkProc (set_session c s) exchanges, Ok (Some s))
                | Raise e => (mkProc c exchanges, Raise e)
                end
              else (mkProc c exchanges, Ok None)
          end
      end
  end.
Proof.
  cbv beta zeta delta [login login_body __get_server_nonce__ requests_get bind
                       gets lift ret modify credential result_field
                       challenge_url handshake_url].
  cbn [self wire app].
  destruct (net (format _ [base_url c; root c; user])) as [f|r1]; [reflexivity|].
  destruct (Response_json r1) as [j1|e]; [|reflexivity].
  destruct (subscript j1 _) as [v1|e]; [|reflexivity].
  destruct (as_str v1) as [sn|e]; [|reflexivity].
  destruct (sha256password _ _ _ _ _) as [pw|e]; [|reflexivity].
  cbn [self wire app].
  destruct (net (format _ [base_url c; root c; user; pw; _])) as [f|r2];
    [reflexivity|].
  destruct (status_code r2 =? 200); [|reflexivity].
  destruct (Response_json r2) as [j2|e]; [|reflexivity].
  destruct (subscript j2 _) as [v2|e]; reflexivity.
Qed.

(** ** [add_session_signature], case by case *)

Section SigningProperties.

Variable render_id_hex : json -> str.
Variable seed_of_secret : str -> Z.

Local Abbreviation sign := (add_session_signature render_id_hex seed_of_secret).
Local Abbreviation id_of := (id_hex render_id_hex).
Local Abbreviation salt_of := (private_salt_hash seed_of_secret).

Lemma sign_cases (c : AutheticatedHTTPClient) (clock : Z) (method : str)
    (parameters : dict) :
  sign c clock method parameters =
  match url_without_sesssion_signature (root c) method parameters with
  | Raise e => (parameters, Raise e)
  | Ok unsigned =>
      match session c with
      | None => (parameters, Raise AttributeError)
      | Some s =>
          match encode unsigned with
          | None => (parameters, Raise UnicodeEncodeError)
          | Some unsigned_bytes =>
              let nonce := nonce8 clock in
              let crc := crc32 unsigned_bytes
                               (crc32 (List.map byte_of_N nonce) (salt_of s)) in
              let signed :=
                setitem parameters signature_key
                        (VStr (id_of s ++ nonce ++ to_hex8_str crc)) in
              (signed,
               match urlencode signed with
               | Some query =>
                   Ok (root c ++ lit "/" ++ method ++ lit "?" ++ query)
               | None => Raise UnicodeEncodeError
               end)
          end
      end
  end.
Proof.
  cbv beta iota zeta delta [add_session_signature bind gets lift ret modify
                       get_tick_count str_encode nonce8 signature_crc
                       signature_key].
  destruct (url_without_sesssion_signature _ _ _) as [u|e]; [|reflexivity].
  destruct (session c) as [s|]; [|reflexivity]. cbn [or_raise].
  rewrite encode_to_hex8_str. cbn [or_raise].
  destruct (encode u) as [ub|]; [|reflexivity]. cbn [or_raise].
  rewrite join_empty_sep_3.
  destruct (urlencode _) as [q|]; reflexivity.
Qed.

End SigningProperties.

(** ** Reference vectors *)

Example sha256_abc :
  sha256_hexdigest (ascii_bytes "abc") =
  lit "ba7816bf8f01cfea414140de5dae2223b00361a396177a9cb410ff61f20015ad".
Proof. vm_compute. reflexivity. Qed.

Example sha256_empty :
  sha256_hexdigest [] =
  lit "e3b0c44298fc1c149afbf4c8996fb92427ae41e4649b934ca495991b7852b855".
Proof. vm_compute. reflexivity. Qed.

Example sha256_two_blocks :
  sha256_hexdigest
    (ascii_bytes "abcdbcdecdefdefgefghfghighijhijkijkljklmklmnlmnomnopnopq") =
  lit "248d6a61d20638b8e5c026930c3e6039a33ce45964ff2167f6ecedd419db06c1".
Proof. vm_compute. reflexivity. Qed.

Example crc32_check_value : crc32 (ascii_bytes "123456789") 0 = 0xCBF43926.
Proof. vm_compute. reflexivity. Qed.

Example crc32_AB_CD :
  crc32 (ascii_bytes "CD") (crc32 (ascii_bytes "AB") 0) = 0xDB1720A5
  /\ crc32 (ascii_bytes "ABCD") 0 = 0xDB1720A5.
Proof. split; vm_compute; reflexivity. Qed.

Example to_hex8_str_vectors :
  to_hex8_str 0 = lit "00000000" /\ to_hex8_str 255 = lit "000000FF"
  /\ to_hex8_str 4294967295 = lit "FFFFFFFF".
Proof. repeat split; vm_compute; reflexivity. Qed.

Example encode_vectors :
  encode [0xE9; 0x20AC; 0x1F600]%N =
    Some [xc3; xa9; xe2; x82; xac; xf0; x9f; x98; x80]
  /\ encode [0xD800%N] = None /\ encode [0xDFFF%N] = None
  /\ encode [0xD7FF%N] = Some [xed; x9f; xbf].
Proof. repeat split. Qed.

Example urlencode_non_ascii :
  urlencode [(lit "k " ++ [0xE9%N], VStr ([0x20AC%N] ++ lit "/ ~"))] =
  Some (lit "k+%C3%A9=%E2%82%AC%2F+~")
  /\ urlencode [(lit "a", VStr [0xDC00%N])] = None.
Proof. split; vm_compute; reflexivity. Qed.

Example urlencode_example :
  urlencode example_parameters = Some (lit "param+1=-15&b=x%2Fy~z").
Proof. vm_compute. reflexivity. Qed.

(** ** The login hash *)

Lemma hex_upper_ascii (b : bytes) : Forall (fun c => (c < 128)%N) (hex_upper b).
Proof.
  unfold hex_upper. induction b as [|x b IH]; [constructor|].
  cbn [flat_map app]. pose proof (Z_of_byte_range x) as Hx.
  constructor; [|constructor; [|exact IH]]; apply hexdigit_upper_ascii.
  - Z.to_euclidean_division_equations. lia.
  - apply Z.mod_pos_bound. lia.
Qed.

(** The client nonce is ASCII text, so its encoding cannot fail. *)
Lemma encode_client_nonce (entropy : random_source) :
  encode (__generate_client_nonce__ entropy) =
  Some (List.map byte_of_N (__generate_client_nonce__ entropy)).
Proof.
  apply encode_ascii. unfold __generate_client_nonce__, token_hex.
  rewrite upper_hexlify. apply hex_upper_ascii.
Qed.

(** [login] raises [UnicodeEncodeError] exactly when one of the five
    strings cannot be encoded, and hashes the concatenation otherwise. *)
Lemma sha256password_cases (r sn cn u ph : str) :
  sha256password r sn cn u ph =
  match encode r, encode sn, encode cn, encode u, encode ph with
  | Some b1, Some b2, Some b3, Some b4, Some b5 =>
      Ok (hex_upper (SHA256.digest (b1 ++ b2 ++ b3 ++ b4 ++ b5)))
  | _, _, _, _, _ => Raise UnicodeEncodeError
  end.
Proof.
  unfold sha256password, str_encode, sha256_hexdigest.
  rewrite join_empty_sep_5, !encode_app.
  destruct (encode r), (encode sn), (encode cn), (encode u), (encode ph);
    cbn [or_raise]; try reflexivity.
  now rewrite upper_hexlify.
Qed.

(** C1: for every root, server nonce, client nonce, user and password hash
    that can be encoded, the [Password] credential that [login] submits in
    its handshake request is the uppercase hexadecimal SHA-256 digest of
    the UTF-8 bytes of the five strings, concatenated in that order with
    nothing between them. *)
Theorem login_hash_is_sha256_of_concatenation
    (c : AutheticatedHTTPClient) (net : network) (entropy : random_source)
    (user password_hash : str)
    (challenge : Response) (server_nonce : str)
    (b_root b_server b_user b_hash : bytes) :
  net (challenge_url c user) = Replied challenge ->
  result_field challenge = Ok (JStr server_nonce) ->
  encode (root c) = Some b_root ->
  encode server_nonce = Some b_server ->
  encode user = Some b_user ->
  encode password_hash = Some b_hash ->
  let client_nonce := __generate_client_nonce__ entropy in
  let password :=
    hex_upper (SHA256.digest (b_root ++ b_server ++ List.map byte_of_N client_nonce
                                ++ b_user ++ b_hash)) in
  encode client_nonce = Some (List.map byte_of_N client_nonce)
  /\ sha256password (root c) server_nonce client_nonce user password_hash = Ok password
  /\ List.map fst (wire (fst (login c net entropy user password_hash))) =
     [challenge_url c user;
      base_url c ++ lit "/" ++ root c ++ lit "/Auth?Username=" ++ user
        ++ lit "&Password=" ++ password ++ lit "&ClientNonce=" ++ client_nonce].
Proof.
  intros Hnet Hfield Hr Hs Hu Hp client_nonce password.
  assert (Hsha : sha256password (root c) server_nonce client_nonce user
                                password_hash = Ok password).
  { rewrite sha256password_cases, Hr, Hs, Hu, Hp.
    unfold client_nonce. now rewrite encode_client_nonce. }
  split; [apply encode_client_nonce|]. split; [exact Hsha|].
  rewrite login_cases. cbv zeta. rewrite Hnet.
  unfold credential. rewrite Hfield. cbn [as_str].
  fold client_nonce. rewrite Hsha.
  assert (Hurl : handshake_url c user password client_nonce =
                 base_url c ++ lit "/" ++ root c ++ lit "/Auth?Username=" ++ user
                   ++ lit "&Password=" ++ password ++ lit "&ClientNonce="
                   ++ client_nonce) by apply format_handshake_url.
  rewrite <- Hurl.
  destruct (net (handshake_url c user password client_nonce)) as [f|r2];
    [reflexivity|].
  destruct (status_code r2 =? 200); [|reflexivity].
  destruct (result_field r2); reflexivity.
Qed.

Lemma login_hash_example :
  sha256password (lit "root") (lit "AAAAAAAA")
                 (lit "BBBBBBBBBBBBBBBBBBBBBBBBBBBBBBBBBBBBBBBBBBBBBBBBBBBBBBBBBBBBBBBB")
                 (lit "admin") example_password_hash =
  Ok (lit "EC81572FEFC9ACEF1F0DD720957D69B9B798F42149627E1825374F5320CEA9E3")
  /\ List.map fst (wire (fst (login example_client accepting example_entropy
                                    (lit "admin") example_password_hash))) =
     [lit "http://localhost:888/root/Auth?Username=admin";
      lit "http://localhost:888/root/Auth?Username=admin&Password=EC81572FEFC9ACEF1F0DD720957D69B9B798F42149627E1825374F5320CEA9E3&ClientNonce=BBBBBBBBBBBBBBBBBBBBBBBBBBBBBBBBBBBBBBBBBBBBBBBBBBBBBBBBBBBBBBBB"].
Proof.
  pose proof (login_hash_is_sha256_of_concatenation
                example_client accepting example_entropy (lit "admin")
                example_password_hash
                (mkResponse 200 (Some (JObj [(lit "result", JStr (lit "AAAAAAAA"))])))
                (lit "AAAAAAAA")
                (ascii_bytes "root") (ascii_bytes "AAAAAAAA")
                (ascii_bytes "admin")
                (List.map byte_of_N example_password_hash)
                eq_refl eq_refl eq_refl eq_refl eq_refl eq_refl) as (_ & H1 & H2).
  split.
  - etransitivity; [exact H1|]. vm_compute. reflexivity.
  - etransitivity; [exact H2|]. vm_compute. reflexivity.
Defined.

(** ** The checksum chain *)

(** C3: for every seed and every pair of byte strings, the checksum of
    lines 100 and 101 is [crc32(b, crc32(a, seed))]: the first segment is
    checksummed from [seed], the second from the result of the first.  It
    is the chain of the spec over the two segments, the standard CRC-32 of
    [a ++ b] continued from [seed], and an unsigned 32-bit value. *)
Theorem checksum_chain_of_two_segments (seed : Z) (a b : bytes) :
  signature_crc seed a b = crc32 b (crc32 a seed)
  /\ signature_crc seed a b = spec_chain seed [a; b]
  /\ signature_crc seed a b = crc32 (a ++ b) seed
  /\ signature_crc seed a b = signature_crc (seed mod 2 ^ 32) a b
  /\ 0 <= signature_crc seed a b < 2 ^ 32.
Proof.
  unfold signature_crc, spec_chain. cbn [fold_left].
  repeat split; try reflexivity.
  - apply crc32_app.
  - now rewrite crc32_value_mod.
  - apply crc32_range.
  - apply crc32_range.
Qed.

Example checksum_chain_AB_CD :
  signature_crc 0 (ascii_bytes "AB") (ascii_bytes "CD") = 0xDB1720A5.
Proof. vm_compute. reflexivity. Qed.

(** ** The outcomes of [login] *)

(** C6: when the request for the server nonce itself fails, [login] raises
    that transport failure: it does not return [None], it makes no further
    request and it leaves the client as it was. *)
Theorem login_propagates_nonce_fetch_failure
    (c : AutheticatedHTTPClient) (net : network) (entropy : random_source)
    (user password_hash : str)
    (f : net_failure) :
  net (challenge_url c user) = Failed f ->
  snd (login c net entropy user password_hash) = Raise (RequestException f)
  /\ snd (login c net entropy user password_hash) <> Ok None
  /\ self (fst (login c net entropy user password_hash)) = c
  /\ wire (fst (login c net entropy user password_hash)) =
     [(challenge_url c user, Failed f)].
Proof.
  intros Hnet. rewrite login_cases. cbv zeta. rewrite Hnet. cbn [fst snd self wire].
  repeat split. discriminate.
Qed.

Lemma login_unreachable_example :
  snd (login example_client unreachable example_entropy (lit "admin")
             example_password_hash) = Raise (RequestException ConnectionRefused)
  /\ snd (login example_client unreachable example_entropy (lit "admin")
                example_password_hash) <> Ok None
  /\ self (fst (login example_client unreachable example_entropy (lit "admin")
                      example_password_hash)) = example_client
  /\ wire (fst (login example_client unreachable example_entropy (lit "admin")
                      example_password_hash)) =
     [(challenge_url example_client (lit "admin"), Failed ConnectionRefused)].
Proof.
  apply (login_propagates_nonce_fetch_failure
           example_client unreachable example_entropy (lit "admin")
           example_password_hash ConnectionRefused).
  reflexivity.
Defined.

(** [login] changes the client only by storing the session of a handshake
    answered with status 200. *)
Lemma login_changes_client_only_on_200
    (c : AutheticatedHTTPClient) (net : network) (entropy : random_source)
    (user password_hash : str) :
  self (fst (login c net entropy user password_hash)) = c
  \/ exists x1 url2 r2 value,
       wire (fst (login c net entropy user password_hash)) =
         [x1; (url2, Replied r2)]
       /\ status_code r2 = 200
       /\ result_field r2 = Ok value
       /\ self (fst (login c net entropy user password_hash)) =
          set_session c (Session_new value password_hash).
Proof.
  rewrite login_cases. cbv zeta.
  destruct (net (challenge_url c user)) as [f|r1]; [now left|].
  destruct (credential c entropy user password_hash r1) as [pw|e]; [|now left].
  destruct (net (handshake_url c user pw (__generate_client_nonce__ entropy)))
    as [f|r2] eqn:E2; [now left|].
  destruct (Z.eqb_spec (status_code r2) 200) as [H200|H200]; [|now left].
  destruct (result_field r2) as [v|e] eqn:Ef; [|now left].
  right. exists (challenge_url c user, Replied r1). eexists. exists r2, v.
  cbn [fst snd self wire]. repeat split; assumption.
Qed.

(** The handshake response, when there is one, decides the outcome. *)
Lemma login_after_handshake
    (c : AutheticatedHTTPClient) (net : network) (entropy : random_source)
    (user password_hash : str)
    (x1 : str * reply) (url2 : str) (r2 : Response) :
  wire (fst (login c net entropy user password_hash)) = [x1; (url2, Replied r2)] ->
  login c net entropy user password_hash =
  if status_code r2 =? 200 then
    match result_field r2 with
    | Ok value =>
        (mkProc (set_session c (Session_new value password_hash))
                [x1; (url2, Replied r2)],
         Ok (Some (Session_new value password_hash)))
    | Raise e => (mkProc c [x1; (url2, Replied r2)], Raise e)
    end
  else (mkProc c [x1; (url2, Replied r2)], Ok None).
Proof.
  rewrite login_cases. cbv zeta.
  destruct (net (challenge_url c user)) as [f|r1]; [discriminate|].
  destruct (credential c entropy user password_hash r1) as [pw|e]; [|discriminate].
  destruct (net (handshake_url c user pw (__generate_client_nonce__ entropy)))
    as [f|r2'] eqn:E2.
  - cbn [fst wire]. intros H. injection H as _ _ H. discriminate.
  - destruct (status_code r2' =? 200) eqn:E200.
    + destruct (result_field r2') as [v|e] eqn:Ef; cbn [fst wire]; intros H;
        injection H as <- <- <-; now rewrite E200, Ef.
    + cbn [fst wire]. intros H. injection H as <- <- <-. now rewrite E200.
Qed.

(** C5, in the form that holds of the code: once the handshake response
    has arrived, a status 200 with a body that is a JSON object holding
    [result] makes [login] store and return [Session(result,
    password_hash)]; any other status makes it return [None], without
    raising; a status 200 whose body has no usable [result] makes it raise
    the error of the lookup. *)
Theorem login_outcome_by_handshake_response
    (c : AutheticatedHTTPClient) (net : network) (entropy : random_source)
    (user password_hash : str)
    (x1 : str * reply) (url2 : str) (r2 : Response) :
  wire (fst (login c net entropy user password_hash)) = [x1; (url2, Replied r2)] ->
  (forall value,
      status_code r2 = 200 -> result_field r2 = Ok value ->
      snd (login c net entropy user password_hash) =
        Ok (Some (Session_new value password_hash))
      /\ session (self (fst (login c net entropy user password_hash))) =
         Some (Session_new value password_hash))
  /\ (status_code r2 <> 200 ->
      snd (login c net entropy user password_hash) = Ok None)
  /\ (forall e,
         status_code r2 = 200 -> result_field r2 = Raise e ->
         snd (login c net entropy user password_hash) = Raise e).
Proof.
  intros Hw. rewrite (login_after_handshake _ _ _ _ _ _ _ _ Hw).
  split; [|split].
  - intros value H200 Hf. rewrite H200, Z.eqb_refl, Hf. split; reflexivity.
  - intros H200. apply Z.eqb_neq in H200. now rewrite H200.
  - intros e H200 Hf. now rewrite H200, Z.eqb_refl, Hf.
Qed.

Lemma login_accepted_example :
  snd (login example_client accepting example_entropy (lit "admin")
             example_password_hash) = Ok (Some example_session)
  /\ session (self (fst (login example_client accepting example_entropy
                               (lit "admin") example_password_hash))) =
     Some example_session.
Proof.
  assert (Hw : wire (fst (login example_client accepting example_entropy
                                (lit "admin") example_password_hash)) =
               [(nonce_url, nonce_reply);
                (handshake_url example_client (lit "admin")
                   (lit "EC81572FEFC9ACEF1F0DD720957D69B9B798F42149627E1825374F5320CEA9E3")
                   (__generate_client_nonce__ example_entropy),
                 Replied (mkResponse 200
                            (Some (JObj [(lit "result", JStr (lit "12345+abc"))]))))])
    by (vm_compute; reflexivity).
  destruct (login_outcome_by_handshake_response _ _ _ _ _ _ _ _ Hw)
    as (Haccepted & _ & _).
  apply (Haccepted (JStr (lit "12345+abc"))); reflexivity.
Defined.

(** C5, counterexample to the specification's wording: the handshake
    response below has status 200 and no [result] in its body, so it is not
    the accepted case, and [login] raises [KeyError] where the
    specification has it return [None]. *)
Lemma login_raises_on_200_without_result :
  wire (fst (login example_client malformed example_entropy (lit "admin")
                   example_password_hash)) =
    [(nonce_url, nonce_reply);
     (handshake_url example_client (lit "admin")
        (lit "EC81572FEFC9ACEF1F0DD720957D69B9B798F42149627E1825374F5320CEA9E3")
        (__generate_client_nonce__ example_entropy),
      Replied (mkResponse 200 (Some (JObj []))))]
  /\ ~ (status_code (mkResponse 200 (Some (JObj []))) = 200
        /\ exists value, result_field (mkResponse 200 (Some (JObj []))) = Ok value)
  /\ snd (login example_client malformed example_entropy (lit "admin")
                example_password_hash) = Raise (KeyError (lit "result"))
  /\ snd (login example_client malformed example_entropy (lit "admin")
                example_password_hash) <> Ok None.
Proof.
  assert (E : snd (login example_client malformed example_entropy (lit "admin")
                         example_password_hash) = Raise (KeyError (lit "result")))
    by (vm_compute; reflexivity).
  split; [|split; [|split]].
  - vm_compute. reflexivity.
  - intros [_ [value Hv]]. vm_compute in Hv. discriminate.
  - exact E.
  - rewrite E. discriminate.
Qed.

(** C10: a handshake answered with a status other than 200 leaves the
    client, and so its session field, exactly as it was, whether that held
    [None] or an earlier session; [login] then returns [None]. *)
Theorem login_rejected_keeps_session
    (c : AutheticatedHTTPClient) (net : network) (entropy : random_source)
    (user password_hash : str)
    (x1 : str * reply) (url2 : str) (r2 : Response) :
  wire (fst (login c net entropy user password_hash)) = [x1; (url2, Replied r2)] ->
  status_code r2 <> 200 ->
  session (self (fst (login c net entropy user password_hash))) = session c
  /\ self (fst (login c net entropy user password_hash)) = c
  /\ snd (login c net entropy user password_hash) = Ok None.
Proof.
  intros Hw H200. rewrite (login_after_handshake _ _ _ _ _ _ _ _ Hw).
  apply Z.eqb_neq in H200. rewrite H200. cbn [fst snd self]. repeat split.
Qed.

Lemma login_rejected_example :
  session (self (fst (login (set_session example_client example_session) rejecting
                            example_entropy (lit "admin") example_password_hash))) =
    Some example_session
  /\ self (fst (login (set_session example_client example_session) rejecting
                      example_entropy (lit "admin") example_password_hash)) =
     set_session example_client example_session
  /\ snd (login (set_session example_client example_session) rejecting
                example_entropy (lit "admin") example_password_hash) = Ok None.
Proof.
  apply (login_rejected_keeps_session
           (set_session example_client example_session) rejecting
           example_entropy (lit "admin") example_password_hash
           (nonce_url, nonce_reply)
           (lit "http://localhost:888/root/Auth?Username=admin&Password=EC81572FEFC9ACEF1F0DD720957D69B9B798F42149627E1825374F5320CEA9E3&ClientNonce=BBBBBBBBBBBBBBBBBBBBBBBBBBBBBBBBBBBBBBBBBBBBBBBBBBBBBBBBBBBBBBBB")
           (mkResponse 403 None)).
  - vm_compute. reflexivity.
  - vm_compute. discriminate.
Defined.

(** ** The unsigned path *)

Lemma quote_plus_some (k : str) : encode k <> None -> quote_plus k <> None.
Proof. unfold quote_plus. destruct (encode k); [discriminate|tauto]. Qed.

(** [urlencode] succeeds on every mapping whose keys and values can be
    encoded. *)
Lemma urlencode_some (d : dict) :
  Forall (fun kv => encode (fst kv) <> None /\ encode (str_of (snd kv)) <> None) d ->
  exists query, urlencode d = Some query.
Proof.
  intros Hd. unfold urlencode.
  assert (H : exists l, urlencode_items d = Some l).
  { induction Hd as [|[k v] d [Hk Hv] Hd IH]; [now exists []|].
    destruct IH as [l Hl]. cbn [urlencode_items fst snd] in *.
    apply quote_plus_some in Hk, Hv.
    destruct (quote_plus k) as [qk|]; [|tauto].
    destruct (quote_plus (str_of v)) as [qv|]; [|tauto].
    rewrite Hl. eauto. }
  destruct H as [l ->]. cbn [option_map]. eauto.
Qed.

Example unsigned_path_examples :
  url_without_sesssion_signature (lit "root") (lit "MyMethod") [] =
    Ok (lit "root/MyMethod")
  /\ url_without_sesssion_signature (lit "root") (lit "MyMethod")
       example_parameters = Ok (lit "root/MyMethod?param+1=-15&b=x%2Fy~z").
Proof. split; vm_compute; reflexivity. Qed.

(** C7: the unsigned path is [root/method] when the mapping is empty and
    [root/method?urlencode(parameters)] when it is not (an error of the
    encoder is raised as it is); so the path of a call is [root/method],
    without the [?] part, exactly when there are no parameters. *)
Theorem unsigned_path_shape (root method : str) (parameters : dict) :
  url_without_sesssion_signature root method parameters =
    match parameters with
    | [] => Ok (root ++ lit "/" ++ method)
    | _ :: _ =>
        match urlencode parameters with
        | Some query => Ok (root ++ lit "/" ++ method ++ lit "?" ++ query)
        | None => Raise UnicodeEncodeError
        end
    end
  /\ (forall path,
         url_without_sesssion_signature root method parameters = Ok path ->
         (path = root ++ lit "/" ++ method <-> parameters = [])).
Proof.
  assert (E : url_without_sesssion_signature root method parameters =
              match parameters with
              | [] => Ok (root ++ lit "/" ++ method)
              | _ :: _ =>
                  match urlencode parameters with
                  | Some query => Ok (root ++ lit "/" ++ method ++ lit "?" ++ query)
                  | None => Raise UnicodeEncodeError
                  end
              end).
  { unfold url_without_sesssion_signature.
    destruct parameters as [|kv rest]; [reflexivity|].
    destruct (urlencode (kv :: rest)); reflexivity. }
  split; [exact E|].
  intros path Hpath. rewrite E in Hpath.
  destruct parameters as [|kv rest].
  - injection Hpath as <-. tauto.
  - destruct (urlencode (kv :: rest)) as [query|]; [|discriminate].
    injection Hpath as <-. split; [|discriminate].
    intros H. exfalso.
    apply app_inv_head in H.
    apply (f_equal (@List.length N)) in H.
    change (lit "/") with [47%N] in H. change (lit "?") with [63%N] in H.
    cbn [app List.length] in H. rewrite length_app in H.
    cbn [List.length] in H. lia.
Qed.

(** ** The signature *)

Section SigningClaims.

Variable render_id_hex : json -> str.
Variable seed_of_secret : str -> Z.

Local Abbreviation sign := (add_session_signature render_id_hex seed_of_secret).
Local Abbreviation id_of := (id_hex render_id_hex).
Local Abbreviation salt_of := (private_salt_hash seed_of_secret).

(** A call that finds a session and can build and encode the unsigned
    path stores the signature in the mapping, whatever happens to the
    serialisation afterwards. *)
Lemma sign_stores_signature (c : AutheticatedHTTPClient) (s : Session)
    (clock : Z) (method : str)
    (parameters : dict) (unsigned : str) (unsigned_bytes : bytes) :
  session c = Some s ->
  url_without_sesssion_signature (root c) method parameters = Ok unsigned ->
  encode unsigned = Some unsigned_bytes ->
  let signature :=
    id_of s ++ nonce8 clock
      ++ to_hex8_str (signature_crc (salt_of s) (List.map byte_of_N (nonce8 clock))
                                    unsigned_bytes) in
  sign c clock method parameters =
  (setitem parameters signature_key (VStr signature),
   match urlencode (setitem parameters signature_key (VStr signature)) with
   | Some query => Ok (root c ++ lit "/" ++ method ++ lit "?" ++ query)
   | None => Raise UnicodeEncodeError
   end).
Proof.
  intros Hs Hu Hb. rewrite sign_cases, Hu, Hs, Hb. reflexivity.
Qed.

(** A call that raises before the assignment leaves the mapping alone. *)
Lemma sign_without_session (c : AutheticatedHTTPClient) (clock : Z) (method : str)
    (parameters : dict) :
  session c = None ->
  fst (sign c clock method parameters) = parameters
  /\ exists e, snd (sign c clock method parameters) = Raise e.
Proof.
  intros Hs. rewrite sign_cases, Hs.
  destruct (url_without_sesssion_signature _ _ _); cbn [fst snd]; eauto.
Qed.

Lemma tick_window_range (clock : Z) :
  0 <= clock < 2 ^ 32 -> 0 <= Z.shiftr clock 8 < 2 ^ 24.
Proof.
  intros Hc. rewrite Z.shiftr_div_pow2 by lia.
  change (2 ^ 8) with 256. change (2 ^ 24) with 16777216.
  change (2 ^ 32) with 4294967296 in Hc.
  Z.to_euclidean_division_equations. lia.
Qed.

(** C2: the signature stored by a signing call is the session's [id_hex],
    then [nonce8 = to_hex8_str(tick >> 8)], then [to_hex8_str(crc)], with
    nothing between them, so it is 16 characters longer than [id_hex];
    both encoded values are unsigned 32-bit values. *)
Theorem session_signature_layout (c : AutheticatedHTTPClient) (s : Session)
    (clock : Z) (method : str) (parameters : dict) (unsigned : str)
    (unsigned_bytes : bytes) :
  session c = Some s ->
  0 <= clock < 2 ^ 32 ->
  url_without_sesssion_signature (root c) method parameters = Ok unsigned ->
  encode unsigned = Some unsigned_bytes ->
  let nonce := to_hex8_str (Z.shiftr (get_tick_count s clock) 8) in
  let crc := spec_chain (salt_of s) [List.map byte_of_N nonce; unsigned_bytes] in
  getitem (fst (sign c clock method parameters)) signature_key =
    Some (VStr (id_of s ++ nonce ++ to_hex8_str crc))
  /\ encode nonce = Some (List.map byte_of_N nonce)
  /\ List.length (id_of s ++ nonce ++ to_hex8_str crc) =
     (List.length (id_of s) + 16)%nat
  /\ 0 <= Z.shiftr (get_tick_count s clock) 8 < 2 ^ 32
  /\ 0 <= crc < 2 ^ 32.
Proof.
  intros Hs Hclock Hu Hb nonce crc.
  rewrite (sign_stores_signature c s clock method parameters unsigned
                                 unsigned_bytes Hs Hu Hb).
  cbn [fst]. rewrite getitem_setitem_same.
  split; [reflexivity|]. split; [apply encode_to_hex8_str|].
  split; [|split].
  - subst nonce. rewrite !length_app, !to_hex8_str_length. lia.
  - unfold get_tick_count. pose proof (tick_window_range clock Hclock). lia.
  - apply crc32_range.
Qed.

(** C8, in the form that holds of the code: a signing call that reaches
    the assignment sets the key [session_signature] in the caller's
    mapping: an entry under that key is overwritten where it stands,
    otherwise the entry is appended; every other key keeps its value, the
    keys keep their order, and the returned path serialises the mapping
    with the signature in it. *)
Theorem sign_sets_signature_in_mapping (c : AutheticatedHTTPClient) (s : Session)
    (clock : Z) (method : str) (parameters : dict) (unsigned : str)
    (unsigned_bytes : bytes) :
  session c = Some s ->
  url_without_sesssion_signature (root c) method parameters = Ok unsigned ->
  encode unsigned = Some unsigned_bytes ->
  let signature :=
    VStr (id_of s ++ nonce8 clock
            ++ to_hex8_str (signature_crc (salt_of s)
                              (List.map byte_of_N (nonce8 clock)) unsigned_bytes)) in
  let signed := fst (sign c clock method parameters) in
  signed = setitem parameters signature_key signature
  /\ getitem signed signature_key = Some signature
  /\ (forall k, k <> signature_key -> getitem signed k = getitem parameters k)
  /\ (In signature_key (keys parameters) -> keys signed = keys parameters)
  /\ (~ In signature_key (keys parameters) ->
      signed = parameters ++ [(signature_key, signature)])
  /\ snd (sign c clock method parameters) =
     match urlencode signed with
     | Some query => Ok (root c ++ lit "/" ++ method ++ lit "?" ++ query)
     | None => Raise UnicodeEncodeError
     end.
Proof.
  intros Hs Hu Hb signature signed. subst signed.
  rewrite (sign_stores_signature c s clock method parameters unsigned
                                 unsigned_bytes Hs Hu Hb).
  cbn [fst snd]. fold signature.
  split; [reflexivity|]. split; [apply getitem_setitem_same|].
  split; [intros k Hk; now apply getitem_setitem_other|].
  split; [apply setitem_present|]. split; [apply setitem_absent|reflexivity].
Qed.

Lemma nonce_component_of_signature (id nonce crc8 : str) :
  List.length nonce = 8%nat ->
  nonce_component (List.length id) (id ++ nonce ++ crc8) = nonce.
Proof.
  intros Hn. unfold nonce_component.
  rewrite skipn_app, skipn_all, Nat.sub_diag. cbn [skipn app].
  rewrite firstn_app, Hn, Nat.sub_diag, firstn_O, app_nil_r.
  apply firstn_all2. lia.
Qed.

(** C9: two signing calls in the same tick window, with the same client
    and session, method and parameters, do the same thing: same mapping,
    same path, same signature.  A call in a later window has another
    [nonce8], and its signature differs in that component. *)
Theorem signing_within_and_across_windows (c : AutheticatedHTTPClient) (s : Session)
    (first again later : Z) (method : str) (parameters : dict)
    (unsigned : str) (unsigned_bytes : bytes) :
  session c = Some s ->
  url_without_sesssion_signature (root c) method parameters = Ok unsigned ->
  encode unsigned = Some unsigned_bytes ->
  0 <= first < 2 ^ 32 -> 0 <= later < 2 ^ 32 ->
  Z.shiftr first 8 = Z.shiftr again 8 ->
  Z.shiftr first 8 < Z.shiftr later 8 ->
  sign c first method parameters = sign c again method parameters
  /\ nonce8 first <> nonce8 later
  /\ exists sig1 sig2,
       getitem (fst (sign c first method parameters)) signature_key =
         Some (VStr sig1)
       /\ getitem (fst (sign c later method parameters)) signature_key =
          Some (VStr sig2)
       /\ nonce_component (List.length (id_of s)) sig1 = nonce8 first
       /\ nonce_component (List.length (id_of s)) sig2 = nonce8 later
       /\ sig1 <> sig2.
Proof.
  intros Hs Hu Hb Hfirst Hlater Hsame Hless.
  assert (Hnonce : nonce8 first <> nonce8 later).
  { unfold nonce8. intros E.
    pose proof (tick_window_range first Hfirst).
    pose proof (tick_window_range later Hlater).
    apply to_hex8_str_inj in E; lia. }
  split; [|split; [exact Hnonce|]].
  - rewrite !sign_cases. unfold nonce8. now rewrite Hsame.
  - rewrite !(sign_stores_signature c s _ method parameters unsigned
                                    unsigned_bytes Hs Hu Hb).
    cbn [fst]. rewrite !getitem_setitem_same.
    do 2 eexists. split; [reflexivity|]. split; [reflexivity|].
    assert (H1 := nonce_component_of_signature (id_of s) (nonce8 first)
                    (to_hex8_str (signature_crc (salt_of s)
                       (List.map byte_of_N (nonce8 first)) unsigned_bytes))
                    (to_hex8_str_length _)).
    assert (H2 := nonce_component_of_signature (id_of s) (nonce8 later)
                    (to_hex8_str (signature_crc (salt_of s)
                       (List.map byte_of_N (nonce8 later)) unsigned_bytes))
                    (to_hex8_str_length _)).
    split; [exact H1|]. split; [exact H2|].
    intros E. rewrite E in H1. congruence.
Qed.

(** ** The lifetime of a session *)

Lemma login_established (c : AutheticatedHTTPClient) (net : network)
    (entropy : random_source)
    (user password_hash : str) (s : Session) :
  snd (login c net entropy user password_hash) = Ok (Some s) ->
  self (fst (login c net entropy user password_hash)) = set_session c s
  /\ secretSeed s = password_hash.
Proof.
  rewrite login_cases. cbv zeta.
  destruct (net (challenge_url c user)) as [f|r1]; [discriminate|].
  destruct (credential c entropy user password_hash r1) as [pw|e]; [|discriminate].
  destruct (net (handshake_url c user pw (__generate_client_nonce__ entropy)))
    as [f|r2]; [discriminate|].
  destruct (status_code r2 =? 200); [|discriminate].
  destruct (result_field r2) as [v|e]; [|discriminate].
  cbn [fst snd self]. intros H. injection H as <-. split; reflexivity.
Qed.

Lemma login_not_established (c : AutheticatedHTTPClient) (net : network)
    (entropy : random_source)
    (user password_hash : str) :
  ~ (exists s, snd (login c net entropy user password_hash) = Ok (Some s)) ->
  self (fst (login c net entropy user password_hash)) = c.
Proof.
  rewrite login_cases. cbv zeta.
  destruct (net (challenge_url c user)) as [f|r1]; [reflexivity|].
  destruct (credential c entropy user password_hash r1) as [pw|e]; [|reflexivity].
  destruct (net (handshake_url c user pw (__generate_client_nonce__ entropy)))
    as [f|r2]; [reflexivity|].
  destruct (status_code r2 =? 200); [|reflexivity].
  destruct (result_field r2) as [v|e]; [|reflexivity].
  cbn [fst snd self]. intros H. exfalso. apply H. eauto.
Qed.

(** No call made during the lifetime of a session changes the client. *)
Lemma run_within_lifetime (c : AutheticatedHTTPClient) (calls : list call) :
  within_lifetime c calls -> run c calls = c.
Proof.
  revert c. induction calls as [|k calls IH]; intros c; [reflexivity|].
  cbn [within_lifetime]. intros [Hk Hrest]. unfold run. cbn [fold_left].
  assert (E : after c k = c).
  { destruct k as [net entropy user ph|clock method parameters];
      [|reflexivity].
    cbn [after establishes] in *. now apply login_not_established. }
  rewrite E in *. now apply IH.
Qed.

(** C4: after a successful [login] with [password_hash], and through any
    later calls that do not establish another session, every signing
    call starts its checksum chain from the session's seed, which is the
    [password_hash] given to that [login]. *)
Theorem checksum_seed_is_login_password_hash
    (c : AutheticatedHTTPClient) (net : network) (entropy : random_source)
    (user password_hash : str)
    (s : Session) (calls : list call)
    (clock : Z) (method : str) (parameters : dict)
    (unsigned : str) (unsigned_bytes : bytes) :
  snd (login c net entropy user password_hash) = Ok (Some s) ->
  within_lifetime (self (fst (login c net entropy user password_hash))) calls ->
  url_without_sesssion_signature (root c) method parameters = Ok unsigned ->
  encode unsigned = Some unsigned_bytes ->
  let current := run (self (fst (login c net entropy user password_hash))) calls in
  session current = Some s
  /\ secretSeed s = password_hash
  /\ salt_of s = seed_of_secret password_hash
  /\ getitem (fst (sign current clock method parameters)) signature_key =
     Some (VStr (id_of s ++ nonce8 clock
                   ++ to_hex8_str
                        (crc32 unsigned_bytes
                           (crc32 (List.map byte_of_N (nonce8 clock))
                                  (seed_of_secret password_hash))))).
Proof.
  intros Hlogin Hlife Hu Hb current.
  destruct (login_established _ _ _ _ _ _ Hlogin) as [Hself Hseed].
  assert (Hnow : current = set_session c s).
  { unfold current. rewrite (run_within_lifetime _ _ Hlife). exact Hself. }
  assert (Hsalt : salt_of s = seed_of_secret password_hash).
  { unfold private_salt_hash. now rewrite Hseed. }
  split; [now rewrite Hnow|]. split; [exact Hseed|]. split; [exact Hsalt|].
  rewrite (sign_stores_signature current s clock method parameters unsigned
                                 unsigned_bytes);
    [|now rewrite Hnow|now rewrite Hnow|exact Hb].
  cbn [fst]. rewrite getitem_setitem_same, Hsalt. reflexivity.
Qed.

End SigningClaims.

Lemma session_signature_example :
  getitem (fst (add_session_signature example_id_hex example_seed
                  (set_session example_client example_session) 123456
                  (lit "MyMethod") example_parameters)) signature_key =
    Some (VStr (lit "00003039000001E2E199E528"))
  /\ List.length (lit "00003039000001E2E199E528") =
     (List.length (id_hex example_id_hex example_session) + 16)%nat.
Proof.
  destruct (session_signature_layout example_id_hex example_seed
              (set_session example_client example_session) example_session
              123456 (lit "MyMethod") example_parameters
              (lit "root/MyMethod?param+1=-15&b=x%2Fy~z")
              (ascii_bytes "root/MyMethod?param+1=-15&b=x%2Fy~z")
              eq_refl) as (Hsig & _ & Hlen & _); [lia|reflexivity|reflexivity|].
  split.
  - etransitivity; [exact Hsig|]. vm_compute. reflexivity.
  - etransitivity; [|exact Hlen]. vm_compute. reflexivity.
Defined.

Lemma sign_appends_signature_example :
  fst (add_session_signature example_id_hex example_seed
         (set_session example_client example_session) 123456
         (lit "MyMethod") example_parameters) =
  example_parameters ++ [(signature_key, VStr (lit "00003039000001E2E199E528"))].
Proof.
  pose proof (sign_sets_signature_in_mapping example_id_hex example_seed
                (set_session example_client example_session) example_session
                123456 (lit "MyMethod") example_parameters
                (lit "root/MyMethod?param+1=-15&b=x%2Fy~z")
                (ascii_bytes "root/MyMethod?param+1=-15&b=x%2Fy~z")
                eq_refl eq_refl eq_refl) as (_ & _ & _ & _ & Habsent & _).
  etransitivity.
  - apply Habsent. vm_compute. intros [H|[H|[]]]; discriminate.
  - vm_compute. reflexivity.
Defined.

(** C8, counterexample to the specification's wording: the mapping below
    holds the key [session_signature] before the call, and the call changes
    the value of that key. *)
Lemma sign_overwrites_earlier_signature :
  getitem signed_before signature_key = Some (VStr (lit "stale"))
  /\ getitem (fst (add_session_signature example_id_hex example_seed
                     (set_session example_client example_session) 123456
                     (lit "MyMethod") signed_before)) signature_key =
     Some (VStr (lit "00003039000001E202D26025"))
  /\ getitem (fst (add_session_signature example_id_hex example_seed
                     (set_session example_client example_session) 123456
                     (lit "MyMethod") signed_before)) signature_key <>
     getitem signed_before signature_key.
Proof.
  assert (E : getitem (fst (add_session_signature example_id_hex example_seed
                              (set_session example_client example_session) 123456
                              (lit "MyMethod") signed_before)) signature_key =
              Some (VStr (lit "00003039000001E202D26025")))
    by (vm_compute; reflexivity).
  split; [vm_compute; reflexivity|]. split; [exact E|].
  rewrite E. vm_compute. discriminate.
Qed.

Lemma signing_windows_example :
  add_session_signature example_id_hex example_seed
    (set_session example_client example_session) 123456 (lit "MyMethod")
    example_parameters =
  add_session_signature example_id_hex example_seed
    (set_session example_client example_session) 123500 (lit "MyMethod")
    example_parameters
  /\ nonce8 123456 <> nonce8 123712.
Proof.
  pose proof (signing_within_and_across_windows example_id_hex example_seed
                (set_session example_client example_session) example_session
                123456 123500 123712 (lit "MyMethod") example_parameters
                (lit "root/MyMethod?param+1=-15&b=x%2Fy~z")
                (ascii_bytes "root/MyMethod?param+1=-15&b=x%2Fy~z")
                eq_refl eq_refl eq_refl) as H.
  destruct H as (Hsame & Hnonce & _); [lia|lia|reflexivity|vm_compute; reflexivity|].
  split; assumption.
Defined.

Lemma checksum_seed_example :
  getitem (fst (add_session_signature example_id_hex example_seed
                  (run (self (fst (login example_client accepting example_entropy
                                         (lit "admin") example_password_hash)))
                       example_calls)
                  123456 (lit "MyMethod") example_parameters)) signature_key =
  Some (VStr (lit "00003039000001E2E199E528")).
Proof.
  assert (Hlife : within_lifetime
                    (self (fst (login example_client accepting example_entropy
                                      (lit "admin") example_password_hash)))
                    example_calls).
  { vm_compute. split; [tauto|].
    repeat (split; [intros [s H]; discriminate H|]). exact I. }
  pose proof (checksum_seed_is_login_password_hash example_id_hex example_seed
                example_client accepting example_entropy (lit "admin")
                example_password_hash example_session example_calls
                123456 (lit "MyMethod") example_parameters
                (lit "root/MyMethod?param+1=-15&b=x%2Fy~z")
                (ascii_bytes "root/MyMethod?param+1=-15&b=x%2Fy~z")
                eq_refl Hlife eq_refl eq_refl) as (_ & _ & _ & H).
  etransitivity; [exact H|]. vm_compute. reflexivity.
Defined.


(** * Further properties of the client *)

(** ** The client nonce *)

Lemma hexdigit_upper_is_upper_hex (n : Z) :
  0 <= n < 16 -> is_upper_hex (hexdigit_upper n) = true.
Proof.
  intros Hn. unfold is_upper_hex, hexdigit_upper.
  destruct (Z.ltb_spec n 10); apply orb_true_iff; [left|right];
    apply andb_true_iff; split; apply N.leb_le; lia.
Qed.

Lemma hex_upper_digits (b : bytes) :
  Forall (fun c => is_upper_hex c = true) (hex_upper b).
Proof.
  unfold hex_upper. induction b as [|x b IH]; [constructor|].
  cbn [flat_map app]. pose proof (Z_of_byte_range x) as Hx.
  constructor; [|constructor; [|exact IH]]; apply hexdigit_upper_is_upper_hex.
  - Z.to_euclidean_division_equations. lia.
  - apply Z.mod_pos_bound. lia.
Qed.

Lemma hex_upper_length (b : bytes) :
  List.length (hex_upper b) = (2 * List.length b)%nat.
Proof.
  unfold hex_upper. induction b as [|x b IH]; [reflexivity|].
  cbn [flat_map app List.length]. rewrite IH. lia.
Qed.

Lemma Z_of_byte_inj (x y : byte) : Z_of_byte x = Z_of_byte y -> x = y.
Proof.
  unfold Z_of_byte. intros E. apply N2Z.inj in E.
  assert (H : Some x = Some y)
    by (rewrite <- (Byte.of_to_N x), <- (Byte.of_to_N y); now rewrite E).
  now injection H.
Qed.

Lemma hex_upper_inj (a b : bytes) : hex_upper a = hex_upper b -> a = b.
Proof.
  revert b. induction a as [|x a IH]; intros [|y b] E;
    try reflexivity; try discriminate E.
  unfold hex_upper in E. cbn [flat_map app] in E.
  injection E as Ehi Elo Erest.
  pose proof (Z_of_byte_range x) as Hx. pose proof (Z_of_byte_range y) as Hy.
  apply hexdigit_upper_inj in Ehi;
    [|Z.to_euclidean_division_equations; lia
     |Z.to_euclidean_division_equations; lia].
  apply hexdigit_upper_inj in Elo; [|apply Z.mod_pos_bound; lia..].
  f_equal.
  - apply Z_of_byte_inj. Z.to_euclidean_division_equations. lia.
  - apply IH. exact Erest.
Qed.

(** X1: the client nonce is always 64 characters long and made of the
    digits [0-9] and [A-F] only. *)
Theorem client_nonce_is_64_upper_hex_digits (entropy : random_source) :
  List.length (__generate_client_nonce__ entropy) = 64%nat
  /\ Forall (fun c => is_upper_hex c = true) (__generate_client_nonce__ entropy).
Proof.
  unfold __generate_client_nonce__, token_hex. rewrite upper_hexlify. split.
  - rewrite hex_upper_length, length_map, length_seq. reflexivity.
  - apply hex_upper_digits.
Qed.

(** X2: two random sources give the same client nonce exactly when they
    agree on their first 32 bytes: the nonce reads 32 bytes and its
    encoding loses none of them. *)
Theorem client_nonce_determines_its_32_bytes (e1 e2 : random_source) :
  __generate_client_nonce__ e1 = __generate_client_nonce__ e2
  <-> forall i, (i < 32)%nat -> e1 i = e2 i.
Proof.
  unfold __generate_client_nonce__, token_hex. rewrite !upper_hexlify. split.
  - intros E i Hi. apply hex_upper_inj in E.
    apply (proj1 map_ext_in_iff E). apply in_seq. lia.
  - intros H. f_equal. apply map_ext_in. intros i Hi.
    apply in_seq in Hi. apply H. lia.
Qed.

(** ** The password that is sent *)

Lemma compress_length (h block : list Z) :
  List.length h = 8%nat -> List.length (SHA256.compress h block) = 8%nat.
Proof.
  intros Hh. unfold SHA256.compress.
  rewrite length_map, length_combine, Hh. reflexivity.
Qed.

Lemma blocks_length (count : nat) (h b : list Z) :
  List.length h = 8%nat -> List.length (SHA256.blocks count h b) = 8%nat.
Proof.
  revert h b. induction count as [|n IH]; intros h b Hh; [exact Hh|].
  cbn [SHA256.blocks]. apply IH. now apply compress_length.
Qed.

Lemma be_bytes4_flat_length (h : list Z) :
  List.length (flat_map (SHA256.be_bytes 4) h) = (4 * List.length h)%nat.
Proof.
  induction h as [|x h IH]; [reflexivity|].
  cbn [flat_map]. rewrite length_app, IH.
  unfold SHA256.be_bytes. rewrite length_map, length_rev, length_seq.
  cbn [List.length]. lia.
Qed.

(** A digest is 32 bytes, whatever the message. *)
Lemma digest_length (msg : bytes) : List.length (SHA256.digest msg) = 32%nat.
Proof.
  unfold SHA256.digest. rewrite length_map, be_bytes4_flat_length.
  rewrite blocks_length; reflexivity.
Qed.

(** X3: whatever the five strings, [login] either fails to encode them,
    with [UnicodeEncodeError], or derives a password of exactly 64
    characters, all of them digits [0-9] or [A-F]. *)
Theorem password_is_64_upper_hex_digits_or_encoding_error
    (r sn cn u ph : str) :
  match sha256password r sn cn u ph with
  | Ok password =>
      List.length password = 64%nat
      /\ Forall (fun c => is_upper_hex c = true) password
  | Raise e => e = UnicodeEncodeError
  end.
Proof.
  rewrite sha256password_cases.
  destruct (encode r), (encode sn), (encode cn), (encode u), (encode ph);
    try reflexivity.
  split; [|apply hex_upper_digits].
  rewrite hex_upper_length, digest_length. reflexivity.
Qed.

(** ** The challenge *)

(** X4: [__get_server_nonce__] makes one request, to the challenge URL, and
    never looks at the status of the answer: two answers with the same
    body give the same result, be it the [result] field or the error of
    reading it. *)
Theorem server_nonce_depends_on_body_only
    (c : AutheticatedHTTPClient) (net1 net2 : network) (user : str)
    (r1 r2 : Response) :
  net1 (challenge_url c user) = Replied r1 ->
  net2 (challenge_url c user) = Replied r2 ->
  body r1 = body r2 ->
  snd (__get_server_nonce__ net1 user (mkProc c [])) =
    snd (__get_server_nonce__ net2 user (mkProc c []))
  /\ snd (__get_server_nonce__ net1 user (mkProc c [])) = result_field r1
  /\ fst (__get_server_nonce__ net1 user (mkProc c [])) =
     mkProc c [(challenge_url c user, Replied r1)].
Proof.
  intros H1 H2 Hbody.
  assert (E : forall net r, net (challenge_url c user) = Replied r ->
                __get_server_nonce__ net user (mkProc c []) =
                (mkProc c [(challenge_url c user, Replied r)], result_field r)).
  { intros net r Hnet.
    cbv beta iota zeta delta [__get_server_nonce__ requests_get bind gets lift
                              challenge_url result_field] in *.
    cbn [self wire app]. rewrite Hnet.
    destruct (Response_json r); reflexivity. }
  rewrite (E net1 r1 H1), (E net2 r2 H2). cbn [fst snd].
  split; [|split; reflexivity].
  unfold result_field, Response_json. now rewrite Hbody.
Qed.

Lemma server_nonce_status_example :
  snd (__get_server_nonce__ failing_with_nonce (lit "admin") (mkProc example_client [])) =
    snd (__get_server_nonce__ accepting (lit "admin") (mkProc example_client []))
  /\ snd (__get_server_nonce__ failing_with_nonce (lit "admin")
            (mkProc example_client [])) =
     result_field (mkResponse 500 (Some (JObj [(lit "result", JStr (lit "AAAAAAAA"))])))
  /\ fst (__get_server_nonce__ failing_with_nonce (lit "admin")
            (mkProc example_client [])) =
     mkProc example_client
       [(challenge_url example_client (lit "admin"),
         Replied (mkResponse 500 (Some (JObj [(lit "result", JStr (lit "AAAAAAAA"))]))))].
Proof.
  apply (server_nonce_depends_on_body_only example_client failing_with_nonce accepting
           (lit "admin")
           (mkResponse 500 (Some (JObj [(lit "result", JStr (lit "AAAAAAAA"))])))
           (mkResponse 200 (Some (JObj [(lit "result", JStr (lit "AAAAAAAA"))]))));
    reflexivity.
Defined.

(** ** [login] and the client object *)

(** X5: [login] changes the client only when it returns a session, and
    then it stores exactly the session it returns, whose seed is the
    password hash it was given; when it returns [None] or raises, the
    client is as before.  The host, port, root and base URL are never
    changed. *)
Theorem login_stores_exactly_what_it_returns
    (c : AutheticatedHTTPClient) (net : network) (entropy : random_source)
    (user password_hash : str) :
  match snd (login c net entropy user password_hash) with
  | Ok (Some s) =>
      self (fst (login c net entropy user password_hash)) = set_session c s
      /\ secretSeed s = password_hash
  | Ok None | Raise _ =>
      self (fst (login c net entropy user password_hash)) = c
  end
  /\ host (self (fst (login c net entropy user password_hash))) = host c
  /\ port (self (fst (login c net entropy user password_hash))) = port c
  /\ root (self (fst (login c net entropy user password_hash))) = root c
  /\ base_url (self (fst (login c net entropy user password_hash))) = base_url c.
Proof.
  rewrite login_cases. cbv zeta.
  destruct (net (challenge_url c user)) as [f|r1];
    [cbn [fst snd self]; repeat split|].
  destruct (credential c entropy user password_hash r1) as [pw|e];
    [|cbn [fst snd self]; repeat split].
  destruct (net (handshake_url c user pw (__generate_client_nonce__ entropy)))
    as [f|r2]; [cbn [fst snd self]; repeat split|].
  destruct (status_code r2 =? 200); [|cbn [fst snd self]; repeat split].
  destruct (result_field r2) as [v|e]; cbn [fst snd self]; repeat split.
Qed.

(** X6: when the challenge is answered but the handshake request itself
    fails, [login] raises that transport failure after two requests and
    leaves the client as it was. *)
Theorem login_propagates_handshake_failure
    (c : AutheticatedHTTPClient) (net : network) (entropy : random_source)
    (user password_hash : str) (challenge : Response) (password : str)
    (f : net_failure) :
  net (challenge_url c user) = Replied challenge ->
  credential c entropy user password_hash challenge = Ok password ->
  net (handshake_url c user password (__generate_client_nonce__ entropy)) =
    Failed f ->
  login c net entropy user password_hash =
  (mkProc c [(challenge_url c user, Replied challenge);
             (handshake_url c user password (__generate_client_nonce__ entropy),
              Failed f)],
   Raise (RequestException f)).
Proof.
  intros H1 Hc H2. rewrite login_cases. cbv zeta. now rewrite H1, Hc, H2.
Qed.

Lemma login_dropped_example :
  login example_client dropping example_entropy (lit "admin") example_password_hash =
  (mkProc example_client
     [(challenge_url example_client (lit "admin"),
       Replied (mkResponse 200 (Some (JObj [(lit "result", JStr (lit "AAAAAAAA"))]))));
      (handshake_url example_client (lit "admin")
         (lit "EC81572FEFC9ACEF1F0DD720957D69B9B798F42149627E1825374F5320CEA9E3")
         (__generate_client_nonce__ example_entropy),
       Failed ReadTimeout)],
   Raise (RequestException ReadTimeout)).
Proof.
  apply (login_propagates_handshake_failure example_client dropping
           example_entropy (lit "admin") example_password_hash
           (mkResponse 200 (Some (JObj [(lit "result", JStr (lit "AAAAAAAA"))])))
           (lit "EC81572FEFC9ACEF1F0DD720957D69B9B798F42149627E1825374F5320CEA9E3")
           ReadTimeout); vm_compute; reflexivity.
Defined.

(** X7: when the [result] of the challenge is not a string (a number, a
    list, [null], ...), [login] raises [TypeError] when joining the
    strings: no handshake request is made and the client is as before. *)
Theorem login_rejects_nonce_that_is_not_a_string
    (c : AutheticatedHTTPClient) (net : network) (entropy : random_source)
    (user password_hash : str) (challenge : Response) (value : json) :
  net (challenge_url c user) = Replied challenge ->
  result_field challenge = Ok value ->
  (forall s, value <> JStr s) ->
  login c net entropy user password_hash =
  (mkProc c [(challenge_url c user, Replied challenge)], Raise TypeError).
Proof.
  intros H1 Hf Hv. rewrite login_cases. cbv zeta. rewrite H1.
  unfold credential. rewrite Hf.
  destruct value; try reflexivity. now destruct (Hv s).
Qed.

Lemma login_number_for_nonce_example :
  login example_client number_for_nonce example_entropy (lit "admin")
        example_password_hash =
  (mkProc example_client
     [(challenge_url example_client (lit "admin"),
       Replied (mkResponse 200 (Some (JObj [(lit "result", JNum 42)]))))],
   Raise TypeError).
Proof.
  apply (login_rejects_nonce_that_is_not_a_string example_client number_for_nonce
           example_entropy (lit "admin") example_password_hash
           (mkResponse 200 (Some (JObj [(lit "result", JNum 42)]))) (JNum 42)).
  - reflexivity.
  - reflexivity.
  - intros s H. discriminate H.
Defined.

(** X8: [login] makes one or two requests, never more; the first is always
    the challenge for the user, and a second one is made only after the
    challenge was answered. *)
Theorem login_makes_at_most_two_requests
    (c : AutheticatedHTTPClient) (net : network) (entropy : random_source)
    (user password_hash : str) :
  (exists r1, wire (fst (login c net entropy user password_hash)) =
              [(challenge_url c user, r1)])
  \/ (exists resp1 password r2,
        wire (fst (login c net entropy user password_hash)) =
          [(challenge_url c user, Replied resp1);
           (handshake_url c user password (__generate_client_nonce__ entropy), r2)]
        /\ credential c entropy user password_hash resp1 = Ok password).
Proof.
  rewrite login_cases. cbv zeta.
  destruct (net (challenge_url c user)) as [f|r1] eqn:E1;
    [left; eexists; reflexivity|].
  destruct (credential c entropy user password_hash r1) as [pw|e] eqn:Ec;
    [|left; eexists; reflexivity].
  right. exists r1, pw.
  exists (net (handshake_url c user pw (__generate_client_nonce__ entropy))).
  split; [|exact Ec].
  destruct (net (handshake_url c user pw (__generate_client_nonce__ entropy)))
    as [f|r2]; [reflexivity|].
  destruct (status_code r2 =? 200); [|reflexivity].
  destruct (result_field r2); reflexivity.
Qed.

Lemma challenge_url_set_session (c : AutheticatedHTTPClient) (held : Session)
    (user : str) :
  challenge_url (set_session c held) user = challenge_url c user.
Proof. unfold challenge_url, set_session. cbn [base_url root]. reflexivity. Qed.

Lemma handshake_url_set_session (c : AutheticatedHTTPClient) (held : Session)
    (user password client_nonce : str) :
  handshake_url (set_session c held) user password client_nonce =
  handshake_url c user password client_nonce.
Proof. unfold handshake_url, set_session. cbn [base_url root]. reflexivity. Qed.

Lemma credential_set_session (c : AutheticatedHTTPClient) (held : Session)
    (entropy : random_source) (user password_hash : str) (challenge : Response) :
  credential (set_session c held) entropy user password_hash challenge =
  credential c entropy user password_hash challenge.
Proof. unfold credential, set_session. cbn [root]. reflexivity. Qed.

Lemma set_session_twice (c : AutheticatedHTTPClient) (held s : Session) :
  set_session (set_session c held) s = set_session c s.
Proof. reflexivity. Qed.

(** X9: [login] does not read the session the client holds: with another
    session in place it makes the same requests and returns the same
    value, and the client ends up with the new session or keeps the one
    it had. *)
Theorem login_ignores_current_session
    (c : AutheticatedHTTPClient) (held : Session) (net : network)
    (entropy : random_source) (user password_hash : str) :
  snd (login (set_session c held) net entropy user password_hash) =
    snd (login c net entropy user password_hash)
  /\ wire (fst (login (set_session c held) net entropy user password_hash)) =
     wire (fst (login c net entropy user password_hash))
  /\ self (fst (login (set_session c held) net entropy user password_hash)) =
     match snd (login c net entropy user password_hash) with
     | Ok (Some s) => set_session c s
     | Ok None | Raise _ => set_session c held
     end.
Proof.
  rewrite (login_cases (set_session c held)), (login_cases c). cbv zeta.
  rewrite challenge_url_set_session.
  destruct (net (challenge_url c user)) as [f|r1];
    [split; [|split]; reflexivity|].
  rewrite credential_set_session.
  destruct (credential c entropy user password_hash r1) as [pw|e];
    [|split; [|split]; reflexivity].
  rewrite handshake_url_set_session.
  destruct (net (handshake_url c user pw (__generate_client_nonce__ entropy)))
    as [f|r2]; [split; [|split]; reflexivity|].
  destruct (status_code r2 =? 200); [|split; [|split]; reflexivity].
  destruct (result_field r2) as [v|e]; cbn [fst snd self wire];
    rewrite ?set_session_twice; split; [|split|idtac|split]; reflexivity.
Qed.

(** ** Text that needs no escaping *)

Lemma to_N_byte_of_N (c : N) : (c < 256)%N -> Byte.to_N (byte_of_N c) = c.
Proof.
  intros Hc. unfold byte_of_N. rewrite N.mod_small by exact Hc.
  destruct (Byte.of_N c) as [b|] eqn:E.
  - now apply Byte.to_of_N.
  - apply Byte.of_N_None_iff in E. lia.
Qed.

Lemma always_safe_ascii (c : N) : always_safe c = true -> (c < 128)%N.
Proof.
  unfold always_safe. intros H.
  repeat (rewrite ?orb_true_iff, ?andb_true_iff, ?N.leb_le, ?N.eqb_eq in H).
  lia.
Qed.

Lemma upper_hex_is_safe (c : N) : is_upper_hex c = true -> always_safe c = true.
Proof.
  unfold is_upper_hex, always_safe. intros H.
  repeat (rewrite ?orb_true_iff, ?andb_true_iff, ?N.leb_le, ?N.eqb_eq in H).
  repeat (rewrite ?orb_true_iff, ?andb_true_iff, ?N.leb_le, ?N.eqb_eq).
  lia.
Qed.

Lemma quote_byte_safe (c : N) :
  always_safe c = true -> quote_byte (byte_of_N c) = [c].
Proof.
  intros Hc. unfold quote_byte. cbv zeta.
  rewrite to_N_byte_of_N by (apply always_safe_ascii in Hc; lia).
  now rewrite Hc.
Qed.

(** [quote_plus] leaves letters, digits and [_.-~] as they are. *)
Lemma quote_plus_safe (s : str) : safe_text s -> quote_plus s = Some s.
Proof.
  intros Hs. unfold quote_plus.
  rewrite encode_ascii
    by (eapply Forall_impl; [|exact Hs]; intros c; apply always_safe_ascii).
  cbn [option_map]. f_equal.
  induction Hs as [|c s Hc Hs IH]; [reflexivity|].
  cbn [List.map flat_map]. now rewrite quote_byte_safe, IH.
Qed.

Lemma to_hex8_str_safe (v : Z) : safe_text (to_hex8_str v).
Proof.
  unfold safe_text, to_hex8_str. apply Forall_map. apply Forall_forall.
  intros k _. apply upper_hex_is_safe, hexdigit_upper_is_upper_hex.
  change 15 with (Z.ones 4). rewrite Z.land_ones by lia.
  apply Z.mod_pos_bound. lia.
Qed.

Lemma signature_for_safe (id : str) (salt clock : Z) (unsigned_bytes : bytes) :
  safe_text id -> safe_text (signature_for id salt clock unsigned_bytes).
Proof.
  intros Hid. unfold signature_for, safe_text, nonce8.
  apply Forall_app. split; [exact Hid|].
  apply Forall_app. split; apply to_hex8_str_safe.
Qed.

Lemma signature_key_safe : safe_text signature_key.
Proof. unfold safe_text. repeat constructor. Qed.

(** ** Serialising a mapping with one more entry *)

Lemma join_snoc (sep : str) (l : list str) (x : str) :
  join sep (l ++ [x]) =
  match l with
  | [] => x
  | _ :: _ => join sep l ++ sep ++ x
  end.
Proof.
  induction l as [|a l IH]; [reflexivity|].
  destruct l as [|b l]; [reflexivity|].
  change (join sep ((a :: b :: l) ++ [x]))
    with (a ++ sep ++ join sep ((b :: l) ++ [x])).
  rewrite IH. change (join sep (a :: b :: l)) with (a ++ sep ++ join sep (b :: l)).
  now rewrite <- !app_assoc.
Qed.

Lemma urlencode_items_snoc (d : dict) (k : str) (v : pyval) :
  urlencode_items (d ++ [(k, v)]) =
  match urlencode_items d, quote_plus k, quote_plus (str_of v) with
  | Some l, Some qk, Some qv => Some (l ++ [qk ++ lit "=" ++ qv])
  | _, _, _ => None
  end.
Proof.
  induction d as [|[k0 v0] d IH]; cbn [app urlencode_items].
  - destruct (quote_plus k), (quote_plus (str_of v)); reflexivity.
  - rewrite IH.
    destruct (quote_plus k0), (quote_plus (str_of v0)), (urlencode_items d),
      (quote_plus k), (quote_plus (str_of v)); reflexivity.
Qed.

Lemma urlencode_items_nil (d : dict) (l : list str) :
  urlencode_items d = Some l -> (l = [] <-> d = []).
Proof.
  destruct d as [|[k v] d]; cbn [urlencode_items].
  - intros H. injection H as <-. tauto.
  - destruct (quote_plus k), (quote_plus (str_of v)), (urlencode_items d);
      try discriminate.
    intros H. injection H as <-. split; discriminate.
Qed.

(** The query string of a mapping to which a signature made of safe
    characters is added under a new key. *)
Lemma urlencode_with_new_signature (d : dict) (sig : str) :
  ~ In signature_key (keys d) ->
  safe_text sig ->
  urlencode (setitem d signature_key (VStr sig)) =
  match d with
  | [] => Some (signature_key ++ lit "=" ++ sig)
  | _ :: _ =>
      match urlencode d with
      | Some query => Some (query ++ lit "&" ++ signature_key ++ lit "=" ++ sig)
      | None => None
      end
  end.
Proof.
  intros Hk Hs. rewrite setitem_absent by exact Hk.
  unfold urlencode. rewrite urlencode_items_snoc.
  rewrite (quote_plus_safe signature_key signature_key_safe).
  cbn [str_of]. rewrite (quote_plus_safe sig Hs).
  destruct d as [|kv d]; [reflexivity|].
  destruct (urlencode_items (kv :: d)) as [l|] eqn:E; [|reflexivity].
  cbn [option_map]. rewrite join_snoc.
  destruct l as [|a l]; [|reflexivity].
  apply urlencode_items_nil in E. destruct E as [E _]. now specialize (E eq_refl).
Qed.

(** ** Signing, in every outcome *)

Section SigningFurther.

Variable render_id_hex : json -> str.
Variable seed_of_secret : str -> Z.

Local Abbreviation sign := (add_session_signature render_id_hex seed_of_secret).
Local Abbreviation id_of := (id_hex render_id_hex).
Local Abbreviation salt_of := (private_salt_hash seed_of_secret).

(** Every call either leaves the mapping as it is or sets the signature
    key in it. *)
Lemma sign_mapping_cases (c : AutheticatedHTTPClient) (clock : Z) (method : str)
    (parameters : dict) :
  fst (sign c clock method parameters) = parameters
  \/ exists sig,
       fst (sign c clock method parameters) =
       setitem parameters signature_key (VStr sig).
Proof.
  rewrite sign_cases.
  destruct (url_without_sesssion_signature (root c) method parameters) as [u|e];
    [|now left].
  destruct (session c) as [s|]; [|now left].
  destruct (encode u) as [ub|]; [|now left].
  right. eexists. reflexivity.
Qed.

Lemma keys_setitem (d : dict) (k : str) (v : pyval) :
  keys (setitem d k v) = keys d \/ keys (setitem d k v) = keys d ++ [k].
Proof.
  destruct (in_dec (list_eq_dec N.eq_dec) k (keys d)) as [Hin|Hout].
  - left. now apply setitem_present.
  - right. rewrite setitem_absent by exact Hout.
    unfold keys. now rewrite map_app.
Qed.

(** X10: in every outcome of [add_session_signature], raised errors
    included, no key other than [session_signature] changes its value, and
    the keys are the ones before, in the same order, with at most
    [session_signature] added at the end; without a session the mapping is
    not touched at all. *)
Theorem sign_touches_only_the_signature_key
    (c : AutheticatedHTTPClient) (clock : Z) (method : str) (parameters : dict) :
  (forall k, k <> signature_key ->
             getitem (fst (sign c clock method parameters)) k =
             getitem parameters k)
  /\ (keys (fst (sign c clock method parameters)) = keys parameters
      \/ keys (fst (sign c clock method parameters)) =
         keys parameters ++ [signature_key])
  /\ (session c = None -> fst (sign c clock method parameters) = parameters).
Proof.
  split; [|split].
  - intros k Hk.
    destruct (sign_mapping_cases c clock method parameters) as [->|[sig ->]];
      [reflexivity|]. now apply getitem_setitem_other.
  - destruct (sign_mapping_cases c clock method parameters) as [->|[sig ->]];
      [now left|]. apply keys_setitem.
  - intros Hs. rewrite sign_cases, Hs.
    destruct (url_without_sesssion_signature (root c) method parameters);
      reflexivity.
Qed.

Lemma unsigned_path_cases (r method : str) (parameters : dict) :
  url_without_sesssion_signature r method parameters =
  match parameters with
  | [] => Ok (r ++ lit "/" ++ method)
  | _ :: _ =>
      match urlencode parameters with
      | Some query => Ok (r ++ lit "/" ++ method ++ lit "?" ++ query)
      | None => Raise UnicodeEncodeError
      end
  end.
Proof.
  unfold url_without_sesssion_signature.
  destruct parameters as [|kv rest]; [reflexivity|].
  destruct (urlencode (kv :: rest)); reflexivity.
Qed.

(** X11: when the mapping holds no signature yet and the session's
    [id_hex] needs no escaping, the path that is returned is the unsigned
    path that was checksummed, followed by [?] (no parameters) or [&], by
    [session_signature=] and by the signature. *)
Theorem signed_path_extends_unsigned_path
    (c : AutheticatedHTTPClient) (s : Session) (clock : Z) (method : str)
    (parameters : dict) (unsigned : str) (unsigned_bytes : bytes) :
  session c = Some s ->
  url_without_sesssion_signature (root c) method parameters = Ok unsigned ->
  encode unsigned = Some unsigned_bytes ->
  ~ In signature_key (keys parameters) ->
  safe_text (id_of s) ->
  snd (sign c clock method parameters) =
  Ok (unsigned ++ signature_separator parameters ++ lit "session_signature="
        ++ signature_for (id_of s) (salt_of s) clock unsigned_bytes).
Proof.
  intros Hs Hu Hb Hk Hid.
  rewrite (sign_stores_signature render_id_hex seed_of_secret c s clock method
             parameters unsigned unsigned_bytes Hs Hu Hb).
  cbn [snd]. fold (signature_for (id_of s) (salt_of s) clock unsigned_bytes).
  rewrite (urlencode_with_new_signature parameters _ Hk
             (signature_for_safe _ _ _ _ Hid)).
  rewrite unsigned_path_cases in Hu.
  change (lit "session_signature=") with (signature_key ++ lit "=").
  destruct parameters as [|kv rest].
  - assert (E : unsigned = root c ++ lit "/" ++ method) by congruence.
    rewrite E. cbn [signature_separator]. now rewrite <- !app_assoc.
  - destruct (urlencode (kv :: rest)) as [q|]; [|discriminate].
    assert (E : unsigned = root c ++ lit "/" ++ method ++ lit "?" ++ q)
      by congruence.
    rewrite E. cbn [signature_separator]. now rewrite <- !app_assoc.
Qed.

Lemma setitem_not_nil (d : dict) (k : str) (v : pyval) : setitem d k v <> [].
Proof.
  destruct d as [|[k0 v0] d]; cbn [setitem]; [discriminate|].
  destruct (str_eqb k k0); discriminate.
Qed.

Lemma key_present_after_setitem (d : dict) (k : str) (v : pyval) :
  In k (keys (setitem d k v)).
Proof.
  destruct (in_dec (list_eq_dec N.eq_dec) k (keys (setitem d k v)))
    as [Hin|Hout]; [exact Hin|].
  apply getitem_none in Hout. rewrite getitem_setitem_same in Hout.
  discriminate.
Qed.

(** X12: signing a mapping that an earlier call has signed does not add
    a second signature entry: the keys stay as the first call left them.
    The unsigned path of such a call is the whole path the successful
    earlier call returned, old signature included. *)
Theorem signing_again_keeps_one_signature_entry
    (c : AutheticatedHTTPClient) (clock1 clock2 : Z) (method : str)
    (parameters : dict) :
  keys (fst (sign c clock2 method (fst (sign c clock1 method parameters)))) =
    keys (fst (sign c clock1 method parameters))
  /\ (forall path,
         snd (sign c clock1 method parameters) = Ok path ->
         url_without_sesssion_signature
           (root c) method (fst (sign c clock1 method parameters)) = Ok path).
Proof.
  split.
  - rewrite (sign_cases render_id_hex seed_of_secret c clock1).
    destruct (url_without_sesssion_signature (root c) method parameters)
      as [u|e] eqn:Eu.
    + destruct (session c) as [s|] eqn:Es.
      * destruct (encode u) as [ub|] eqn:Eb.
        -- cbv zeta. cbn [fst].
           match goal with
           | |- keys (fst (sign _ _ _ (setitem ?d ?k ?v))) = _ =>
               destruct (sign_mapping_cases c clock2 method (setitem d k v))
                 as [->|[sig ->]]; [reflexivity|];
               apply setitem_present, key_present_after_setitem
           end.
        -- cbn [fst]. now rewrite sign_cases, Eu, Es, Eb.
      * cbn [fst]. now rewrite sign_cases, Eu, Es.
    + cbn [fst]. now rewrite sign_cases, Eu.
  - intros path. rewrite (sign_cases render_id_hex seed_of_secret c clock1).
    destruct (url_without_sesssion_signature (root c) method parameters)
      as [u|e]; [|discriminate].
    destruct (session c) as [s|]; [|discriminate].
    destruct (encode u) as [ub|]; [|discriminate].
    cbv zeta. cbn [fst snd].
    match goal with
    | |- context [urlencode (setitem ?d ?k ?v)] =>
        pose proof (setitem_not_nil d k v) as Hne;
        rewrite (unsigned_path_cases (root c) method (setitem d k v));
        destruct (setitem d k v) as [|kv rest]; [congruence|];
        destruct (urlencode (kv :: rest)); [tauto|discriminate]
    end.
Qed.

End SigningFurther.

Lemma signed_path_example :
  snd (add_session_signature example_id_hex example_seed
         (set_session example_client example_session) 123456
         (lit "MyMethod") example_parameters) =
  Ok (lit "root/MyMethod?param+1=-15&b=x%2Fy~z&session_signature=00003039000001E2E199E528").
Proof.
  etransitivity.
  - apply (signed_path_extends_unsigned_path example_id_hex example_seed
             (set_session example_client example_session) example_session
             123456 (lit "MyMethod") example_parameters
             (lit "root/MyMethod?param+1=-15&b=x%2Fy~z")
             (ascii_bytes "root/MyMethod?param+1=-15&b=x%2Fy~z")
             eq_refl eq_refl eq_refl).
    + vm_compute. intros [H|[H|[]]]; discriminate.
    + unfold safe_text. vm_compute. repeat constructor.
  - vm_compute. reflexivity.
Defined.

(** ** The request methods *)

Section RequestProperties.

Variable render_id_hex : json -> str.
Variable seed_of_secret : str -> Z.

Local Abbreviation sign := (add_session_signature render_id_hex seed_of_secret).
Local Abbreviation id_of := (id_hex render_id_hex).
Local Abbreviation salt_of := (private_salt_hash seed_of_secret).

(** The path signed for a fresh, empty mapping. *)
Lemma sign_fresh_mapping (c : AutheticatedHTTPClient) (s : Session) (clock : Z)
    (method : str) (unsigned_bytes : bytes) :
  session c = Some s ->
  encode (root c ++ lit "/" ++ method) = Some unsigned_bytes ->
  safe_text (id_of s) ->
  snd (sign c clock method []) =
  Ok (root c ++ lit "/" ++ method ++ lit "?session_signature="
        ++ signature_for (id_of s) (salt_of s) clock unsigned_bytes).
Proof.
  intros Hs Hb Hid.
  rewrite (sign_stores_signature render_id_hex seed_of_secret c s clock method
             [] (root c ++ lit "/" ++ method) unsigned_bytes Hs eq_refl Hb).
  cbn [snd]. fold (signature_for (id_of s) (salt_of s) clock unsigned_bytes).
  rewrite (urlencode_with_new_signature [] _ (fun H => H)
             (signature_for_safe _ _ _ _ Hid)).
  change (lit "?session_signature=") with (lit "?" ++ signature_key ++ lit "=").
  now rewrite <- !app_assoc.
Qed.

Lemma sign_fresh_mapping_without_session (c : AutheticatedHTTPClient)
    (clock : Z) (method : str) :
  session c = None -> snd (sign c clock method []) = Raise AttributeError.
Proof. intros Hs. now rewrite sign_cases, Hs. Qed.

(** X13: [request] signs the caller's mapping and then makes one GET, with
    no body, to [base_url/root/method?query]; it returns the response
    whatever its status.  The caller's mapping holds the signature
    afterwards, also when the GET could not reach the server. *)
Theorem request_signs_the_mapping_then_gets
    (c : AutheticatedHTTPClient) (s : Session) (clock : Z) (net : transport)
    (method : str) (parameters : dict) (unsigned : str) (unsigned_bytes : bytes)
    (query : str) :
  session c = Some s ->
  url_without_sesssion_signature (root c) method parameters = Ok unsigned ->
  encode unsigned = Some unsigned_bytes ->
  urlencode (setitem parameters signature_key
               (VStr (signature_for (id_of s) (salt_of s) clock unsigned_bytes))) =
    Some query ->
  let rq :=
    mkRequest GET (base_url c ++ lit "/" ++ root c ++ lit "/" ++ method
                     ++ lit "?" ++ query) None in
  request render_id_hex seed_of_secret c clock net method parameters =
  (setitem parameters signature_key
     (VStr (signature_for (id_of s) (salt_of s) clock unsigned_bytes)),
   ([(rq, net rq)], delivered (net rq))).
Proof.
  intros Hs Hu Hb Hq rq. unfold request. cbv zeta.
  rewrite (sign_stores_signature render_id_hex seed_of_secret c s clock method
             parameters unsigned unsigned_bytes Hs Hu Hb).
  fold (signature_for (id_of s) (salt_of s) clock unsigned_bytes).
  rewrite Hq. reflexivity.
Qed.

(** X14: [post], [put] and [delete] sign the bare path [root/method]: with
    a session whose [id_hex] needs no escaping, each makes one request to
    the same URL, [base_url/root/method?session_signature=...], which
    depends neither on the verb nor on the body, and returns the response
    whatever its status. *)
Theorem post_put_delete_request_the_same_signed_url
    (c : AutheticatedHTTPClient) (s : Session) (clock : Z) (net : transport)
    (method posted stored : str) (unsigned_bytes : bytes) :
  session c = Some s ->
  encode (root c ++ lit "/" ++ method) = Some unsigned_bytes ->
  safe_text (id_of s) ->
  let url :=
    base_url c ++ lit "/" ++ root c ++ lit "/" ++ method
      ++ lit "?session_signature="
      ++ signature_for (id_of s) (salt_of s) clock unsigned_bytes in
  post render_id_hex seed_of_secret c clock net method posted =
    ([(mkRequest POST url (Some posted), net (mkRequest POST url (Some posted)))],
     delivered (net (mkRequest POST url (Some posted))))
  /\ put render_id_hex seed_of_secret c clock net method stored =
     ([(mkRequest PUT url (Some stored), net (mkRequest PUT url (Some stored)))],
      delivered (net (mkRequest PUT url (Some stored))))
  /\ delete render_id_hex seed_of_secret c clock net method =
     ([(mkRequest DELETE url None, net (mkRequest DELETE url None))],
      delivered (net (mkRequest DELETE url None))).
Proof.
  intros Hs Hb Hid url. unfold post, put, delete, bind, lift, send.
  rewrite (sign_fresh_mapping c s clock method unsigned_bytes Hs Hb Hid).
  repeat split.
Qed.

(** X15: [xget] signs the path [root/], with an empty method: it makes one
    GET that carries [data] as its body, to
    [base_url/root/?session_signature=...]. *)
Theorem xget_signs_the_root_path
    (c : AutheticatedHTTPClient) (s : Session) (clock : Z) (net : transport)
    (data : str) (unsigned_bytes : bytes) :
  session c = Some s ->
  encode (root c ++ lit "/") = Some unsigned_bytes ->
  safe_text (id_of s) ->
  let url :=
    base_url c ++ lit "/" ++ root c ++ lit "/?session_signature="
      ++ signature_for (id_of s) (salt_of s) clock unsigned_bytes in
  xget render_id_hex seed_of_secret c clock net data =
  ([(mkRequest GET url (Some data), net (mkRequest GET url (Some data)))],
   delivered (net (mkRequest GET url (Some data)))).
Proof.
  intros Hs Hb Hid url. unfold xget, bind, lift, send.
  assert (Hb' : encode (root c ++ lit "/" ++ []) = Some unsigned_bytes)
    by (now rewrite app_nil_r).
  rewrite (sign_fresh_mapping c s clock [] unsigned_bytes Hs Hb' Hid).
  reflexivity.
Qed.

(** X16: on a client without a session, as [__init__] makes it, no request
    method contacts the server: [post], [put], [delete] and [xget] raise
    [AttributeError], [request] raises too and leaves the caller's mapping
    as it was. *)
Theorem no_request_is_sent_without_a_session
    (c : AutheticatedHTTPClient) (clock : Z) (net : transport)
    (method body_text : str) (parameters : dict) :
  session c = None ->
  post render_id_hex seed_of_secret c clock net method body_text =
    ([], Raise AttributeError)
  /\ put render_id_hex seed_of_secret c clock net method body_text =
     ([], Raise AttributeError)
  /\ delete render_id_hex seed_of_secret c clock net method =
     ([], Raise AttributeError)
  /\ xget render_id_hex seed_of_secret c clock net body_text =
     ([], Raise AttributeError)
  /\ fst (request render_id_hex seed_of_secret c clock net method parameters) =
     parameters
  /\ fst (snd (request render_id_hex seed_of_secret c clock net method
                       parameters)) = []
  /\ exists e,
       snd (snd (request render_id_hex seed_of_secret c clock net method
                         parameters)) = Raise e.
Proof.
  intros Hs. unfold post, put, delete, xget, request, bind, lift.
  rewrite !(sign_fresh_mapping_without_session c clock _ Hs).
  repeat split.
  - rewrite sign_cases, Hs.
    destruct (url_without_sesssion_signature (root c) method parameters);
      reflexivity.
  - rewrite sign_cases, Hs.
    destruct (url_without_sesssion_signature (root c) method parameters);
      reflexivity.
  - rewrite sign_cases, Hs.
    destruct (url_without_sesssion_signature (root c) method parameters);
      cbn [snd fst]; eauto.
Qed.

End RequestProperties.

Lemma request_offline_example :
  request example_id_hex example_seed
    (set_session example_client example_session) 123456 offline
    (lit "MyMethod") example_parameters =
  (example_parameters
     ++ [(signature_key, VStr (lit "00003039000001E2E199E528"))],
   ([(mkRequest GET
        (lit "http://localhost:888/root/MyMethod?param+1=-15&b=x%2Fy~z&session_signature=00003039000001E2E199E528")
        None,
      Failed DNSFailure)],
    Raise (RequestException DNSFailure))).
Proof.
  etransitivity.
  - apply (request_signs_the_mapping_then_gets example_id_hex example_seed
             (set_session example_client example_session) example_session
             123456 offline (lit "MyMethod") example_parameters
             (lit "root/MyMethod?param+1=-15&b=x%2Fy~z")
             (ascii_bytes "root/MyMethod?param+1=-15&b=x%2Fy~z")
             (lit "param+1=-15&b=x%2Fy~z&session_signature=00003039000001E2E199E528")
             eq_refl eq_refl eq_refl).
    vm_compute. reflexivity.
  - vm_compute. reflexivity.
Defined.

Lemma post_put_delete_example :
  fst (post example_id_hex example_seed
         (set_session example_client example_session) 123456 echo
         (lit "MyMethod") (lit "{id: 1}")) =
    [(mkRequest POST
        (lit "http://localhost:888/root/MyMethod?session_signature=00003039000001E25F67F00C")
        (Some (lit "{id: 1}")),
      Replied (mkResponse 404
        (Some (JStr (lit "http://localhost:888/root/MyMethod?session_signature=00003039000001E25F67F00C")))))]
  /\ List.map (fun x => rq_url (fst x))
       (fst (put example_id_hex example_seed
               (set_session example_client example_session) 123456 echo
               (lit "MyMethod") (lit "{id: 2}"))) =
     [lit "http://localhost:888/root/MyMethod?session_signature=00003039000001E25F67F00C"]
  /\ List.map (fun x => rq_url (fst x))
       (fst (delete example_id_hex example_seed
               (set_session example_client example_session) 123456 echo
               (lit "MyMethod"))) =
     [lit "http://localhost:888/root/MyMethod?session_signature=00003039000001E25F67F00C"].
Proof.
  destruct (post_put_delete_request_the_same_signed_url
              example_id_hex example_seed
              (set_session example_client example_session) example_session
              123456 echo (lit "MyMethod") (lit "{id: 1}") (lit "{id: 2}")
              (ascii_bytes "root/MyMethod") eq_refl eq_refl)
    as (Hpost & Hput & Hdelete).
  - unfold safe_text. vm_compute. repeat constructor.
  - split; [|split].
    + rewrite Hpost. vm_compute. reflexivity.
    + rewrite Hput. vm_compute. reflexivity.
    + rewrite Hdelete. vm_compute. reflexivity.
Defined.

Lemma xget_example :
  xget example_id_hex example_seed
    (set_session example_client example_session) 123456 echo
    (lit "select Dest from DestList") =
  ([(mkRequest GET
       (lit "http://localhost:888/root/?session_signature=00003039000001E25A4764D0")
       (Some (lit "select Dest from DestList")),
     Replied (mkResponse 404
       (Some (JStr (lit "http://localhost:888/root/?session_signature=00003039000001E25A4764D0")))))],
   Ok (mkResponse 404
         (Some (JStr (lit "http://localhost:888/root/?session_signature=00003039000001E25A4764D0"))))).
Proof.
  etransitivity.
  - apply (xget_signs_the_root_path example_id_hex example_seed
             (set_session example_client example_session) example_session
             123456 echo (lit "select Dest from DestList")
             (ascii_bytes "root/") eq_refl eq_refl).
    unfold safe_text. vm_compute. repeat constructor.
  - vm_compute. reflexivity.
Defined.

Lemma fresh_client_sends_nothing_example :
  post example_id_hex example_seed example_client 123456 echo
       (lit "MyMethod") (lit "{id: 1}") = ([], Raise AttributeError)
  /\ fst (request example_id_hex example_seed example_client 123456 echo
            (lit "MyMethod") example_parameters) = example_parameters.
Proof.
  destruct (no_request_is_sent_without_a_session example_id_hex example_seed
              example_client 123456 echo (lit "MyMethod") (lit "{id: 1}")
              example_parameters eq_refl)
    as (Hpost & _ & _ & _ & Hmapping & _).
  split; assumption.
Defined.
